(** * Credit approval system: scoring, eligibility, amortization

    A shallow embedding of the request-handling core of the Django
    application ([app/views.py], [app/serializers.py], [app/schemas.py])
    with the properties of its specification.

    Conventions of the embedding.
    - Python [int] is [Z].  Python [float] is an exact rational [Q]:
      rounding error, overflow and NaN are not represented.  The one
      special value the code itself manufactures, [float("inf")], is kept
      apart in the type [pyfloat].
    - [date.today()] is read once per request and passed as [today].
    - The relational store is a pair of lists (customers, loans); query
      sets are [filter]s over them, aggregates are folds.
    - A Python exception is a value [Raise e] of the result type [exc].
    - [datetime.date] is a record of year, month and day with the
      invariant [valid_date]; the upper limit on years ([MAXYEAR]) is not
      part of it, and a property that depends on it says so.
    - The body of a loan request is taken as a mapping with typed fields;
      stored customers and loans range over the rows that the handlers and
      the specification's data model allow. *)

From Stdlib Require Import ZArith QArith Qround Qpower Qminmax.
From Stdlib Require Import List Bool String Lia Lqa.
Import ListNotations.

Open Scope Z_scope.

(** ** Python numerics *)

Module Py.

(** Exceptions that the modelled code can raise. *)
Inductive error : Type :=
| ZeroDivisionError.

Inductive exc (A : Type) : Type :=
| Return (a : A)
| Raise (e : error).

Arguments Return {A} a.
Arguments Raise {A} e.

Definition bind {A B : Type} (m : exc A) (k : A -> exc B) : exc B :=
  match m with
  | Return a => k a
  | Raise e => Raise e
  end.

Notation "x <- m ;; k" := (bind m (fun x => k))
  (at level 61, m at next level, right associativity).

(** A float that is either finite or the positive infinity produced by
    [float("inf")]. *)
Inductive pyfloat : Type :=
| Fin (q : Q)
| Inf.

(** Equality of floats as numbers ([Q] has several representations of one
    rational). *)
Definition feq (a b : pyfloat) : Prop :=
  match a, b with
  | Fin x, Fin y => (x == y)%Q
  | Inf, Inf => True
  | _, _ => False
  end.

Definition Qltb (a b : Q) : bool := negb (Qle_bool b a).

(** [max(a, b)] of two numbers: the first argument unless the second is
    strictly larger. *)
Definition max (a b : Q) : Q := if Qltb a b then b else a.

(** [min(a, b)]: the first argument unless the second is strictly smaller. *)
Definition min (a b : Q) : Q := if Qltb b a then b else a.

(** [round(x)] with one argument: nearest integer, ties to the even one. *)
Definition round (x : Q) : Z :=
  let f := Qfloor x in
  match ((x - inject_Z f) ?= (1 # 2))%Q with
  | Lt => f
  | Gt => f + 1
  | Eq => if Z.even f then f else f + 1
  end.

(** [round(x, 2)]: nearest multiple of 1/100, ties to even; the infinity is
    returned unchanged. *)
Definition round2 (x : pyfloat) : pyfloat :=
  match x with
  | Fin q => Fin (inject_Z (round (q * 100)) / 100)
  | Inf => Inf
  end.

(** [b ** e] for a float base and an integer exponent; a zero base with a
    negative exponent raises. *)
Definition pow (b : Q) (e : Z) : exc Q :=
  if Qeq_bool b 0 && (e <? 0) then Raise ZeroDivisionError
  else Return (b ^ e)%Q.

(** [x + y] on floats. *)
Definition fadd (a b : pyfloat) : pyfloat :=
  match a, b with
  | Fin x, Fin y => Fin (x + y)
  | _, _ => Inf
  end.

(** [a > b] for a float [a] and a finite [b]. *)
Definition fgtb (a : pyfloat) (b : Q) : bool :=
  match a with
  | Fin x => Qltb b x
  | Inf => true
  end.

End Py.

Import Py.

(** ** Calendar dates ([datetime.date]) *)

Record date : Type := mkdate { year : Z; month : Z; day : Z }.

Definition isleap (y : Z) : bool :=
  (y mod 4 =? 0) && (negb (y mod 100 =? 0) || (y mod 400 =? 0)).

(** [calendar.monthrange(y, m)[1]]. *)
Definition days_in_month (y m : Z) : Z :=
  if m =? 2 then (if isleap y then 29 else 28)
  else if (m =? 4) || (m =? 6) || (m =? 9) || (m =? 11) then 30
  else 31.

(** The invariant of every [datetime.date] object. *)
Definition valid_date (d : date) : Prop :=
  1 <= year d /\ 1 <= month d <= 12 /\ 1 <= day d <= days_in_month (year d) (month d).

(** [a < b] and [a <= b] on dates: lexicographic on (year, month, day). *)
Definition date_ltb (a b : date) : bool :=
  (year a <? year b)
  || ((year a =? year b)
      && ((month a <? month b) || ((month a =? month b) && (day a <? day b)))).

Definition date_leb (a b : date) : bool := negb (date_ltb b a).

(** [datetime.MAXYEAR]: a date past it cannot be built. *)
Definition MAXYEAR : Z := 9999.

(** Months elapsed since year 0: orders (year, month) pairs. *)
Definition month_index (d : date) : Z := year d * 12 + month d.

(** [date.toordinal()], after CPython's [_ymd2ord]. *)
Definition days_before_year (y : Z) : Z :=
  let y' := y - 1 in y' * 365 + y' / 4 - y' / 100 + y' / 400.

Fixpoint days_before_month_aux (y : Z) (m : nat) : Z :=
  match m with
  | O => 0
  | S k => days_before_month_aux y k + days_in_month y (Z.of_nat (S k))
  end.

Definition days_before_month (y m : Z) : Z :=
  days_before_month_aux y (Z.to_nat (m - 1)).

Definition toordinal (d : date) : Z :=
  days_before_year (year d) + days_before_month (year d) (month d) + day d.

(** ** [dateutil.relativedelta]

    Only what the application reaches: the difference of two dates
    ([relativedelta(dt1, dt2)]) and the addition of a whole number of
    months to a date ([d + relativedelta(months=n)]).  Microseconds are
    always zero for dates and are left out. *)

Module RelativeDelta.

Record t : Type := mk {
  years : Z; months : Z; days : Z; hours : Z; minutes : Z; seconds : Z
}.

(** [_sign(x) = int(copysign(1, x))]. *)
Definition sign (x : Z) : Z := if x <? 0 then -1 else 1.

(** [_set_months]: the pair (years, months) for a signed month count. *)
Definition set_months (m : Z) : Z * Z :=
  if 11 <? Z.abs m then
    let s := sign m in
    (((m * s) / 12) * s, ((m * s) mod 12) * s)
  else (0, m).

(** [__radd__] for a delta that carries years and months only. *)
Definition radd (ym : Z * Z) (other : date) : date :=
  let '(yrs, mths) := ym in
  let y := year other + yrs in
  let m := month other in
  let '(y, m) :=
    if mths =? 0 then (y, m)
    else
      let m := m + mths in
      if 12 <? m then (y + 1, m - 12)
      else if m <? 1 then (y - 1, m + 12)
      else (y, m) in
  mkdate y m (Z.min (days_in_month y m) (day other)).

(** The adjustment loop [while compare(dt1, dtm): months += increment].
    [forward] is the test [dt1 < dt2] made before the loop; [None] means
    the iteration budget ran out. *)
Fixpoint adjust (fuel : nat) (dt1 dt2 : date) (forward : bool) (m : Z)
  : option Z :=
  let dtm := radd (set_months m) dt2 in
  let overshoot := if forward then date_ltb dtm dt1 else date_ltb dt1 dtm in
  if overshoot then
    match fuel with
    | O => None
    | S fuel' => adjust fuel' dt1 dt2 forward (m + (if forward then 1 else -1))
    end
  else Some m.

(** One carry step of [_fix]: when [|lo| > limit], move the whole units of
    [lo] into [hi]. *)
Definition carry (limit unit lo hi : Z) : Z * Z :=
  if limit <? Z.abs lo then
    let s := sign lo in
    (((lo * s) mod unit) * s, hi + ((lo * s) / unit) * s)
  else (lo, hi).

Definition fix_ (r : t) : t :=
  let '(sec, mins) := carry 59 60 (seconds r) (minutes r) in
  let '(mins, hrs) := carry 59 60 mins (hours r) in
  let '(hrs, dys) := carry 23 24 hrs (days r) in
  let '(mths, yrs) := carry 11 12 (months r) (years r) in
  mk yrs mths dys hrs mins sec.

(** [relativedelta(dt1, dt2)]. *)
Definition between (fuel : nat) (dt1 dt2 : date) : option t :=
  let m0 := (year dt1 - year dt2) * 12 + (month dt1 - month dt2) in
  match adjust fuel dt1 dt2 (date_ltb dt1 dt2) m0 with
  | None => None
  | Some m =>
      let ym := set_months m in
      let dtm := radd ym dt2 in
      let delta_days := toordinal dt1 - toordinal dtm in
      Some (fix_ (mk (fst ym) (snd ym) 0 0 0 (0 + delta_days * 86400)))
  end.

(** [d + relativedelta(months=n)]. *)
Definition add_months (d : date) (n : Z) : date :=
  let r := fix_ (mk 0 n 0 0 0 0) in
  radd (years r, months r) d.

End RelativeDelta.

(** ** Data model ([app/models.py] is not part of the sources; the fields
    are the ones the views, tests and ingestion command read and write) *)

Record Customer : Type := mkCustomer {
  customer_id : Z;
  first_name : string;
  last_name : string;
  age : Z;
  phone_number : Z;
  monthly_salary : Q;
  approved_limit : Z
}.

Record Loan : Type := mkLoan {
  loan_id : Z;
  customer : Z;              (* foreign key: the owner's [customer_id] *)
  loan_amount : Q;
  tenure : Z;
  interest_rate : Q;
  monthly_repayment : pyfloat;
  emis_paid_on_time : Z;
  start_date : date;
  end_date : date
}.

Record Store : Type := mkStore {
  customers : list Customer;
  loans : list Loan
}.

(** *** Query sets and aggregates *)

Definition sumQ (xs : list Q) : Q := fold_right Qplus 0%Q xs.
Definition sumZ (xs : list Z) : Z := fold_right Z.add 0 xs.
Definition sumF (xs : list pyfloat) : pyfloat := fold_right fadd (Fin 0) xs.

(** [qs.aggregate(total=Sum(field))["total"]]: [None] on an empty query
    set. *)
Definition Sum {A : Type} (total : list A -> A) (xs : list A) : option A :=
  match xs with
  | [] => None
  | _ :: _ => Some (total xs)
  end.

(** [x or 0]: [None] and zero both yield zero. *)
Definition or_zero {A : Type} (zero : A) (x : option A) : A :=
  match x with
  | Some v => v
  | None => zero
  end.

(** [Loan.objects.filter(customer=customer)]. *)
Definition loans_of (db : list Loan) (c : Customer) : list Loan :=
  filter (fun l => customer l =? customer_id c) db.

(** [.filter(end_date__gte=today)]. *)
Definition active (today : date) (ls : list Loan) : list Loan :=
  filter (fun l => date_leb today (end_date l)) ls.

(** [Customer.objects.get(pk=id)]; [None] stands for [DoesNotExist]. *)
Definition get_customer (cs : list Customer) (id : Z) : option Customer :=
  find (fun c => customer_id c =? id) cs.

(** ** [app/views.py]: scoring, amortization, eligibility *)

(** *** [calculate_credit_score]

    The four weights are the local variables of the function, each written
    as a definition over the customer's loans. *)

Definition current_loan_sum (today : date) (ls : list Loan) : Q :=
  or_zero 0%Q (Sum sumQ (map loan_amount (active today ls))).

Definition paid_on_time_weight (ls : list Loan) : Q :=
  let paid_on_time_emis := or_zero 0 (Sum sumZ (map emis_paid_on_time ls)) in
  let total_emis := or_zero 0 (Sum sumZ (map tenure ls)) in
  if 0 <? total_emis
  then (inject_Z paid_on_time_emis / inject_Z total_emis * 30)%Q
  else 0%Q.

Definition num_loans_weight (ls : list Loan) : Z :=
  Z.min (Z.of_nat (List.length ls) * 5) 20.

Definition loan_activity_weight (today : date) (ls : list Loan) : Z :=
  let current_year := year today in
  Z.min
    (Z.of_nat (List.length (filter (fun l => year (start_date l) =? current_year) ls)) * 5)
    20.

Definition loan_volume_weight (limit : Z) (ls : list Loan) : Q :=
  let total_loan_amount := or_zero 0%Q (Sum sumQ (map loan_amount ls)) in
  if (0 <? limit) && Qle_bool total_loan_amount (inject_Z limit)
  then Py.min (total_loan_amount / inject_Z limit * 15)%Q 15%Q
  else 0%Q.

Definition base_score : Z := 25.

(** The unrounded sum [credit_score] of the function body. *)
Definition raw_credit_score (today : date) (limit : Z) (ls : list Loan) : Q :=
  (inject_Z base_score
   + paid_on_time_weight ls
   + inject_Z (num_loans_weight ls)
   + inject_Z (loan_activity_weight today ls)
   + loan_volume_weight limit ls)%Q.

Definition calculate_credit_score (db : list Loan) (today : date) (c : Customer)
  : Z :=
  let ls := loans_of db c in
  if Qltb (inject_Z (approved_limit c)) (current_loan_sum today ls) then 0
  else Py.round (raw_credit_score today (approved_limit c) ls).

(** The condition under which [calculate_credit_score] does not take the
    early [return 0]. *)
Definition within_limit (db : list Loan) (today : date) (c : Customer) : Prop :=
  (or_zero 0 (Sum sumQ (map loan_amount (active today (loans_of db c))))
   <= inject_Z (approved_limit c))%Q.

(** *** [calculate_monthly_installment] *)

Definition calculate_monthly_installment
  (amount rate : Q) (tenure_months : Z) : exc pyfloat :=
  if tenure_months =? 0 then Return Inf
  else
    let monthly_interest_rate := (rate / 100 / 12)%Q in
    if Qeq_bool monthly_interest_rate 0
    then Return (Fin (amount / inject_Z tenure_months))
    else
      g <- Py.pow (1 + monthly_interest_rate) tenure_months ;;
      let numerator := (amount * monthly_interest_rate * g)%Q in
      g' <- Py.pow (1 + monthly_interest_rate) tenure_months ;;
      let denominator := (g' - 1)%Q in
      if Qeq_bool denominator 0 then Return Inf
      else Return (Fin (numerator / denominator)).

(** *** [get_eligibility_status] *)

Record Eligibility : Type := mkEligibility {
  approval : bool;
  corrected_interest_rate : Q;
  monthly_installment : pyfloat
}.

(** [current_emis]: installments of the customer's active loans. *)
Definition current_emis (db : list Loan) (today : date) (c : Customer)
  : pyfloat :=
  or_zero (Fin 0)
    (Sum sumF
       (map monthly_repayment
          (filter (fun l => (customer l =? customer_id c)
                            && date_leb today (end_date l)) db))).

(** The debt-burden test [current_emis > customer.monthly_salary * 0.5]. *)
Definition over_burdened (db : list Loan) (today : date) (c : Customer) : bool :=
  fgtb (current_emis db today c) (monthly_salary c * (1 # 2)).

(** The [if / elif / elif / else] chain on the score: the pair
    (approval, corrected_interest_rate). *)
Definition tier (credit_score : Z) (rate : Q) : bool * Q :=
  if 50 <? credit_score then (true, rate)
  else if (30 <? credit_score) && (credit_score <=? 50)
  then (true, Py.max rate 12)
  else if (10 <? credit_score) && (credit_score <=? 30)
  then (true, Py.max rate 16)
  else (false, rate).

Definition get_eligibility_status
  (db : list Loan) (today : date) (c : Customer)
  (amount rate : Q) (tenure_months : Z) : exc Eligibility :=
  if over_burdened db today c then
    Return (mkEligibility false rate (Fin 0))
  else
    let credit_score := calculate_credit_score db today c in
    let '(approved, corrected) := tier credit_score rate in
    installment <-
      (if approved
       then calculate_monthly_installment amount corrected tenure_months
       else Return (Fin 0)) ;;
    Return (mkEligibility approved corrected (round2 installment)).

(** ** [app/schemas.py]: request payloads and their validation

    A payload holds the fields after type coercion; validation is the
    [Field(..., gt=0)] / [Field(..., ge=0)] range checks.  [None] stands
    for a raised [ValidationError]. *)

Module RegisterCustomerSchema.
Record t : Type := mk {
  first_name : string;
  last_name : string;
  age : Z;
  monthly_income : Q;
  phone_number : Z
}.
Definition validate (d : t) : option t :=
  if (0 <? age d) && Qltb 0 (monthly_income d) then Some d else None.
End RegisterCustomerSchema.

(** [CheckEligibilitySchema] and [CreateLoanSchema] have the same fields
    and the same constraints. *)
Module LoanRequestSchema.
Record t : Type := mk {
  customer_id : Z;
  loan_amount : Q;
  interest_rate : Q;
  tenure : Z
}.
Definition validate (d : t) : option t :=
  if Qltb 0 (loan_amount d) && Qle_bool 0 (interest_rate d) && (0 <? tenure d)
  then Some d else None.
End LoanRequestSchema.

(** ** Responses *)

Inductive body : Type :=
| ErrorMessage (error : string)
| ValidationErrors
| SerializerErrors
| CustomerCreated
    (customer_id : Z) (name : string) (age : Z) (monthly_income : Q)
    (approved_limit : Z) (phone_number : Z)
| EligibilityResult
    (customer_id : Z) (approval : bool) (interest_rate : Q)
    (corrected_interest_rate : option Q) (tenure : Z)
    (monthly_installment : pyfloat)
| LoanResult
    (loan_id : option Z) (customer_id : Z) (loan_approved : bool)
    (message : string) (monthly_installment : pyfloat).

Record Response : Type := mkResponse { data : body; status : Z }.

Definition HTTP_200_OK : Z := 200.
Definition HTTP_201_CREATED : Z := 201.
Definition HTTP_400_BAD_REQUEST : Z := 400.
Definition HTTP_404_NOT_FOUND : Z := 404.

(** The body of a request: [request.data] need not be a mapping. *)
Inductive request_data (A : Type) : Type :=
| NotADict
| Dict (fields : A).
Arguments NotADict {A}.
Arguments Dict {A} fields.

(** The approved limit computed at registration. *)
Definition compute_approved_limit (monthly_income : Q) : Z :=
  Py.round (36 * monthly_income / 100000) * 100000.

(** ** The request handlers

    The model serializers validate against field declarations of
    [app/models.py] and the store allots primary keys; both are taken as
    parameters. *)

Section Handlers.

Variable CustomerSerializer_is_valid : Customer -> bool.
Variable LoanSerializer_is_valid : Loan -> bool.
Variable next_customer_id : list Customer -> Z.
Variable next_loan_id : list Loan -> Z.

(** [register_customer]: the response and the store after the request.
    The serializer sees the record without a primary key; [0] fills the
    field until [save] allots one. *)
Definition register_customer
  (st : Store) (req : request_data RegisterCustomerSchema.t) : Response * Store :=
  match req with
  | NotADict =>
      (mkResponse (ErrorMessage "Invalid data format") HTTP_400_BAD_REQUEST, st)
  | Dict fields =>
      match RegisterCustomerSchema.validate fields with
      | None => (mkResponse ValidationErrors HTTP_400_BAD_REQUEST, st)
      | Some validated_data =>
          let limit :=
            compute_approved_limit
              (RegisterCustomerSchema.monthly_income validated_data) in
          let customer_data :=
            mkCustomer 0
              (RegisterCustomerSchema.first_name validated_data)
              (RegisterCustomerSchema.last_name validated_data)
              (RegisterCustomerSchema.age validated_data)
              (RegisterCustomerSchema.phone_number validated_data)
              (RegisterCustomerSchema.monthly_income validated_data)
              limit in
          if CustomerSerializer_is_valid customer_data then
            let c :=
              mkCustomer (next_customer_id (customers st))
                (first_name customer_data) (last_name customer_data)
                (age customer_data) (phone_number customer_data)
                (monthly_salary customer_data) (approved_limit customer_data) in
            (mkResponse
               (CustomerCreated (customer_id c)
                  (first_name c ++ " " ++ last_name c) (age c)
                  (monthly_salary c) (approved_limit c) (phone_number c))
               HTTP_201_CREATED,
             mkStore (customers st ++ [c]) (loans st))
          else (mkResponse SerializerErrors HTTP_400_BAD_REQUEST, st)
      end
  end.

(** [check_eligibility]: read-only. *)
Definition check_eligibility
  (st : Store) (today : date) (req : LoanRequestSchema.t) : exc Response :=
  match LoanRequestSchema.validate req with
  | None => Return (mkResponse ValidationErrors HTTP_400_BAD_REQUEST)
  | Some v =>
      match get_customer (customers st) (LoanRequestSchema.customer_id v) with
      | None =>
          Return (mkResponse (ErrorMessage "Customer not found") HTTP_404_NOT_FOUND)
      | Some c =>
          e <- get_eligibility_status (loans st) today c
                 (LoanRequestSchema.loan_amount v)
                 (LoanRequestSchema.interest_rate v)
                 (LoanRequestSchema.tenure v) ;;
          Return
            (mkResponse
               (EligibilityResult (LoanRequestSchema.customer_id v)
                  (approval e) (LoanRequestSchema.interest_rate v)
                  (if approval e then Some (corrected_interest_rate e) else None)
                  (LoanRequestSchema.tenure v) (monthly_installment e))
               HTTP_200_OK)
      end
  end.

(** [create_loan]: the response and the store after the request.  The
    only write to the store is the [serializer.save()] of the last
    branch. *)
Definition create_loan
  (st : Store) (today : date) (req : LoanRequestSchema.t)
  : exc (Response * Store) :=
  match LoanRequestSchema.validate req with
  | None => Return (mkResponse ValidationErrors HTTP_400_BAD_REQUEST, st)
  | Some v =>
      match get_customer (customers st) (LoanRequestSchema.customer_id v) with
      | None =>
          Return
            (mkResponse (ErrorMessage "Customer not found") HTTP_404_NOT_FOUND, st)
      | Some c =>
          e <- get_eligibility_status (loans st) today c
                 (LoanRequestSchema.loan_amount v)
                 (LoanRequestSchema.interest_rate v)
                 (LoanRequestSchema.tenure v) ;;
          if negb (approval e) then
            Return
              (mkResponse
                 (LoanResult None (LoanRequestSchema.customer_id v) false
                    "Loan not approved based on eligibility check." (Fin 0))
                 HTTP_200_OK,
               st)
          else
            let start := today in
            let finish :=
              RelativeDelta.add_months start (LoanRequestSchema.tenure v) in
            let loan_data :=
              mkLoan 0 (customer_id c)
                (LoanRequestSchema.loan_amount v) (LoanRequestSchema.tenure v)
                (corrected_interest_rate e) (monthly_installment e)
                0 start finish in
            if LoanSerializer_is_valid loan_data then
              let l :=
                mkLoan (next_loan_id (loans st)) (customer loan_data)
                  (loan_amount loan_data) (tenure loan_data)
                  (interest_rate loan_data) (monthly_repayment loan_data)
                  (emis_paid_on_time loan_data)
                  (start_date loan_data) (end_date loan_data) in
              Return
                (mkResponse
                   (LoanResult (Some (loan_id l))
                      (LoanRequestSchema.customer_id v) true
                      "Loan approved successfully!" (monthly_installment e))
                   HTTP_201_CREATED,
                 mkStore (customers st) (loans st ++ [l]))
            else Return (mkResponse SerializerErrors HTTP_400_BAD_REQUEST, st)
      end
  end.

End Handlers.

(** ** [app/serializers.py]: [ViewLoansSerializer.get_repayments_left] *)

Definition get_repayments_left (fuel : nat) (today end_ : date) : option Z :=
  if date_ltb end_ today then Some 0
  else
    match RelativeDelta.between fuel end_ today with
    | None => None
    | Some delta =>
        let months_left :=
          RelativeDelta.years delta * 12 + RelativeDelta.months delta in
        if 0 <? RelativeDelta.days delta then Some (months_left + 1)
        else Some months_left
    end.

(** ** [app/serializers.py] and the read-only views of [app/views.py] *)

(** One element of [ViewLoansSerializer(loans, many=True).data]. *)
Module ViewLoansSerializer.
Record t : Type := mk {
  loan_id : Z;
  loan_amount : Q;
  interest_rate : Q;
  monthly_repayment : pyfloat;
  repayments_left : Z
}.
End ViewLoansSerializer.

(** [LoanDetailSerializer(loan).data]: the customer is nested whole
    ([CustomerSerializer] with [fields = "__all__"]). *)
Module LoanDetailSerializer.
Record t : Type := mk {
  loan_id : Z;
  customer : Customer;
  loan_amount : Q;
  interest_rate : Q;
  monthly_repayment : pyfloat;
  tenure : Z
}.
End LoanDetailSerializer.

Inductive view_body : Type :=
| ViewError (error : string)
| LoanDetail (detail : LoanDetailSerializer.t)
| LoanList (items : list ViewLoansSerializer.t).

Record ViewResponse : Type := mkViewResponse {
  view_data : view_body;
  view_status : Z
}.

(** [Loan.objects.get(pk=loan_id)]; [None] stands for [DoesNotExist]. *)
Definition get_loan (ls : list Loan) (id : Z) : option Loan :=
  find (fun l => loan_id l =? id) ls.

(** [ViewLoansSerializer] on one loan; [None] when the month loop of
    [get_repayments_left] runs out of its iteration budget. *)
Definition serialize_loan (fuel : nat) (today : date) (l : Loan)
  : option ViewLoansSerializer.t :=
  match get_repayments_left fuel today (end_date l) with
  | None => None
  | Some n =>
      Some (ViewLoansSerializer.mk (loan_id l) (loan_amount l)
              (interest_rate l) (monthly_repayment l) n)
  end.

(** [many=True]: the loans are serialized in query-set order. *)
Fixpoint serialize_loans (fuel : nat) (today : date) (ls : list Loan)
  : option (list ViewLoansSerializer.t) :=
  match ls with
  | [] => Some []
  | l :: rest =>
      match serialize_loan fuel today l, serialize_loans fuel today rest with
      | Some x, Some xs => Some (x :: xs)
      | _, _ => None
      end
  end.

(** [view_loan].  [select_related("customer")] joins the owner's row; a
    loan whose owner is missing is not returned by the joined query. *)
Definition view_loan (st : Store) (id : Z) : ViewResponse :=
  match get_loan (loans st) id with
  | None => mkViewResponse (ViewError "Loan not found") HTTP_404_NOT_FOUND
  | Some l =>
      match get_customer (customers st) (customer l) with
      | None => mkViewResponse (ViewError "Loan not found") HTTP_404_NOT_FOUND
      | Some c =>
          mkViewResponse
            (LoanDetail
               (LoanDetailSerializer.mk (loan_id l) c (loan_amount l)
                  (interest_rate l) (monthly_repayment l) (tenure l)))
            HTTP_200_OK
      end
  end.

(** [view_customer_loans]. *)
Definition view_customer_loans
  (fuel : nat) (st : Store) (today : date) (id : Z) : option ViewResponse :=
  if negb (existsb (fun c => customer_id c =? id) (customers st)) then
    Some (mkViewResponse (ViewError "Customer not found") HTTP_404_NOT_FOUND)
  else
    match serialize_loans fuel today
            (filter (fun l => customer l =? id) (loans st)) with
    | None => None
    | Some items => Some (mkViewResponse (LoanList items) HTTP_200_OK)
    end.

(** ** Notions used to state properties *)

(** Every loan of the store is owned by a customer of the store. *)
Definition loans_have_owners (st : Store) : bool :=
  forallb
    (fun l => existsb (fun c => customer_id c =? customer l) (customers st))
    (loans st).

(** The outstanding balance after [k] monthly payments: each month the
    balance earns interest at the monthly rate [r], then [payment] is
    deducted. *)
Fixpoint balance (principal r payment : Q) (k : nat) : Q :=
  match k with
  | O => principal
  | S k' => (balance principal r payment k' * (1 + r) - payment)%Q
  end.

(** ** Sample data

    Customers and loan histories used to exercise the definitions; the
    first two follow the fixtures of [app/tests.py]. *)

Module Samples.

Definition today : date := mkdate 2025 9 15.

(** The fixture of [CustomerAPITests.setUp]. *)
Definition john : Customer := mkCustomer 1 "John" "Doe" 30 1234567890 50000 1800000.
Definition john_loan : Loan :=
  mkLoan 1 1 10000 12 10 (Fin (87916 # 100)) 5 (mkdate 2025 3 15) (mkdate 2026 3 15).

(** [test_create_loan_rejected]: the same customer on a salary of 1000. *)
Definition john_poor : Customer := mkCustomer 1 "John" "Doe" 30 1234567890 1000 1800000.

(** A customer with no loan history ([test_create_loan_approved]). *)
Definition newcomer : Customer :=
  mkCustomer 4 "New" "Borrower" 30 3333333333 80000 2500000.

(** One running loan larger than the approved limit. *)
Definition over_limit_loan : Loan :=
  mkLoan 2 1 2000000 24 10 (Fin 1000) 3 (mkdate 2025 1 10) (mkdate 2027 1 10).

(** Two closed loans that together use the whole limit: score 50. *)
Definition fifty : Customer := mkCustomer 5 "Mid" "Tier" 35 2222222222 60000 100000.
Definition fifty_loans : list Loan :=
  [ mkLoan 10 5 50000 12 10 (Fin 4396) 0 (mkdate 2021 1 1) (mkdate 2022 1 1);
    mkLoan 11 5 50000 12 10 (Fin 4396) 0 (mkdate 2022 2 1) (mkdate 2023 2 1) ].

(** One small closed loan: score 30. *)
Definition thirty : Customer := mkCustomer 6 "Low" "Tier" 35 2222222223 60000 1000000.
Definition thirty_loans : list Loan :=
  [ mkLoan 12 6 10000 12 10 (Fin 879) 0 (mkdate 2021 1 1) (mkdate 2022 1 1) ].

(** A closed loan whose on-time counter is negative. *)
Definition negative_counter_loans : list Loan :=
  [ mkLoan 13 6 200000 10 10 (Fin 20000) (-11) (mkdate 2021 1 1) (mkdate 2021 11 1) ].

(** A closed loan whose principal is negative. *)
Definition negative_amount_loans : list Loan :=
  [ mkLoan 14 6 (-1000000) 10 10 (Fin 20000) 0 (mkdate 2021 1 1) (mkdate 2021 11 1) ].

(** A customer without loans whose approved limit is negative. *)
Definition negative_limit : Customer :=
  mkCustomer 7 "Neg" "Limit" 30 4444444444 80000 (-100000).

(** A store that accepts every record and numbers rows consecutively. *)
Definition accept_customer (_ : Customer) : bool := true.
Definition accept_loan (_ : Loan) : bool := true.
Definition next_customer_id (cs : list Customer) : Z :=
  1 + fold_right Z.max 0 (map customer_id cs).
Definition next_loan_id (ls : list Loan) : Z :=
  1 + fold_right Z.max 0 (map loan_id ls).

(** [test_create_loan_rejected] and [test_register_customer]. *)
Definition poor_store : Store := mkStore [john_poor] [john_loan].
Definition rejected_request : LoanRequestSchema.t :=
  LoanRequestSchema.mk 1 5000 12 6.
Definition store : Store := mkStore [john] [john_loan].
Definition jane : RegisterCustomerSchema.t :=
  RegisterCustomerSchema.mk "Jane" "Doe" 28 75000 9876543210.

(** A loan of another customer. *)
Definition stranger_loan : Loan :=
  mkLoan 20 5 75000 24 11 (Fin 3500) 4 (mkdate 2025 2 1) (mkdate 2027 2 1).

(** The evaluation of a request on the sample day. *)
Definition quote (db : list Loan) (c : Customer) (amount rate : Q) (n : Z)
  : Eligibility :=
  match get_eligibility_status db today c amount rate n with
  | Return e => e
  | Raise _ => mkEligibility false rate Inf
  end.

(** [test_create_loan_approved]: a first loan for a customer without
    history, and what the handler makes of it. *)
Definition fresh_store : Store := mkStore [newcomer] [].
Definition approved_request : LoanRequestSchema.t :=
  LoanRequestSchema.mk 4 5000 12 6.
Definition issue_outcome : Response * Store :=
  match create_loan accept_loan next_loan_id fresh_store today approved_request
  with
  | Return outcome => outcome
  | Raise _ => (mkResponse ValidationErrors HTTP_400_BAD_REQUEST, fresh_store)
  end.

(** [test_register_customer]: what the handler makes of Jane's
    registration. *)
Definition registration_outcome : Response * Store :=
  register_customer accept_customer next_customer_id store (Dict jane).

End Samples.

(** * Properties *)

(** ** Numeric helpers *)

Section Numerics.
Local Open Scope Q_scope.

Lemma Qltb_lt (a b : Q) : Qltb a b = true <-> a < b.
Proof.
  unfold Qltb. rewrite negb_true_iff.
  split; intro H.
  - apply Qnot_le_lt. intro Hle. apply Qle_bool_iff in Hle. congruence.
  - destruct (Qle_bool b a) eqn:E; [|reflexivity].
    apply Qle_bool_iff in E. exfalso. exact (Qlt_not_le _ _ H E).
Qed.

Lemma Qltb_ge (a b : Q) : Qltb a b = false <-> b <= a.
Proof.
  unfold Qltb. rewrite negb_false_iff. apply Qle_bool_iff.
Qed.

Lemma max_ge_l (a b : Q) : a <= Py.max a b.
Proof.
  unfold Py.max. destruct (Qltb a b) eqn:E.
  - apply Qltb_lt in E. apply Qlt_le_weak, E.
  - apply Qle_refl.
Qed.

Lemma max_ge_r (a b : Q) : b <= Py.max a b.
Proof.
  unfold Py.max. destruct (Qltb a b) eqn:E.
  - apply Qle_refl.
  - apply Qltb_ge in E. exact E.
Qed.

Lemma max_is_Qmax (a b : Q) : Py.max a b == Qmax a b.
Proof.
  unfold Py.max. destruct (Qltb a b) eqn:E.
  - apply Qltb_lt in E. symmetry. apply Q.max_r. apply Qlt_le_weak, E.
  - apply Qltb_ge in E. symmetry. apply Q.max_l. exact E.
Qed.



Lemma round_bounds (x : Q) :
  (Qfloor x <= Py.round x <= Qfloor x + 1)%Z.
Proof.
  unfold Py.round.
  destruct (x - inject_Z (Qfloor x) ?= 1 # 2); [destruct (Z.even _)| |]; lia.
Qed.

(** An integer below [x] is below [round(x)]. *)
Lemma round_ge (n : Z) (x : Q) : inject_Z n <= x -> (n <= Py.round x)%Z.
Proof.
  intro H. apply Qfloor_resp_le in H. rewrite Qfloor_Z in H.
  pose proof (round_bounds x). lia.
Qed.

(** An integer above [x] is above [round(x)]. *)
Lemma round_le (n : Z) (x : Q) : x <= inject_Z n -> (Py.round x <= n)%Z.
Proof.
  intro H.
  assert (Hf : (Qfloor x <= n)%Z).
  { apply Qfloor_resp_le in H. now rewrite Qfloor_Z in H. }
  destruct (Z.eq_dec (Qfloor x) n) as [E|NE].
  - unfold Py.round.
    assert (Hx : x - inject_Z (Qfloor x) <= 0).
    { rewrite E. lra. }
    destruct (Qcompare_spec (x - inject_Z (Qfloor x)) (1 # 2)) as [He|Hl|Hg].
    + exfalso. lra.
    + lia.
    + exfalso. lra.
  - pose proof (round_bounds x). lia.
Qed.

Lemma round_Z (n : Z) : Py.round (inject_Z n) = n.
Proof.
  apply Z.le_antisymm.
  - apply round_le, Qle_refl.
  - apply round_ge, Qle_refl.
Qed.

(** [round(x)] is within one half of [x]. *)
Lemma round_near (x : Q) :
  x - (1 # 2) <= inject_Z (Py.round x) <= x + (1 # 2).
Proof.
  pose proof (Qfloor_le x) as Hlo. pose proof (Qlt_floor x) as Hhi.
  rewrite inject_Z_plus in Hhi. change (inject_Z 1) with 1 in Hhi.
  unfold Py.round.
  destruct (Qcompare_spec (x - inject_Z (Qfloor x)) (1 # 2)) as [He|Hl|Hg];
    [destruct (Z.even (Qfloor x))| |];
    rewrite ?inject_Z_plus; change (inject_Z 1) with 1; lra.
Qed.

End Numerics.

(** ** Query-set helpers *)

Lemma current_emis_active (db : list Loan) (today : date) (c : Customer) :
  current_emis db today c
  = or_zero (Fin 0)
      (Sum sumF (map monthly_repayment (active today (loans_of db c)))).
Proof.
  unfold current_emis, active, loans_of.
  f_equal. f_equal. f_equal.
  induction db as [|l db IH]; simpl; [reflexivity|].
  destruct (customer l =? customer_id c); simpl;
    destruct (date_leb today (end_date l)); simpl; rewrite IH; reflexivity.
Qed.

Lemma round2_zero : feq (round2 (Fin 0)) (Fin 0).
Proof. reflexivity. Qed.

(** ** The amortization formula never raises for a non-negative rate *)

Lemma pow_defined (b : Q) (e : Z) :
  ~ (b == 0)%Q -> Py.pow b e = Return (b ^ e)%Q.
Proof.
  intro Hb. unfold Py.pow.
  destruct (Qeq_bool b 0) eqn:E; [|reflexivity].
  apply Qeq_bool_iff in E. contradiction.
Qed.

Lemma pow_total (b : Q) (e : Z) :
  (0 <= e \/ ~ (b == 0)%Q) -> Py.pow b e = Return (b ^ e)%Q.
Proof.
  intros [He|Hb]; [|apply pow_defined, Hb].
  unfold Py.pow. apply Z.ltb_ge in He. rewrite He, andb_false_r. reflexivity.
Qed.

Lemma installment_defined (amount rate : Q) (n : Z) :
  (0 <= rate)%Q ->
  exists x, calculate_monthly_installment amount rate n = Return x.
Proof.
  intro Hr. unfold calculate_monthly_installment.
  destruct (n =? 0); [eexists; reflexivity|].
  destruct (Qeq_bool (rate / 100 / 12) 0); [eexists; reflexivity|].
  rewrite pow_defined.
  - simpl. destruct (Qeq_bool _ 0); eexists; reflexivity.
  - intro H0.
    assert (0 <= rate / 100 / 12)%Q.
    { unfold Qdiv. repeat apply Qmult_le_0_compat; try assumption; discriminate. }
    lra.
Qed.

Section InstallmentBranches.
Local Open Scope Q_scope.

Lemma installment_zero_tenure (amount rate : Q) :
  calculate_monthly_installment amount rate 0 = Return Inf.
Proof. reflexivity. Qed.

Lemma installment_straight_line (amount rate : Q) (n : Z) :
  n <> 0%Z -> rate / 100 / 12 == 0 ->
  calculate_monthly_installment amount rate n
  = Return (Fin (amount / inject_Z n)).
Proof.
  intros Hn Hr. unfold calculate_monthly_installment.
  apply Z.eqb_neq in Hn. rewrite Hn.
  apply Qeq_bool_iff in Hr. now rewrite Hr.
Qed.

Lemma installment_reducing_balance (amount rate : Q) (n : Z) :
  let r := rate / 100 / 12 in
  let g := (1 + r) ^ n in
  n <> 0%Z -> ~ r == 0 -> ((0 <= n)%Z \/ ~ 1 + r == 0) ->
  calculate_monthly_installment amount rate n
  = Return (if Qeq_bool (g - 1) 0 then Inf
            else Fin (amount * r * g / (g - 1))).
Proof.
  intros r g Hn Hr Hp. unfold calculate_monthly_installment. fold r.
  apply Z.eqb_neq in Hn. rewrite Hn.
  destruct (Qeq_bool r 0) eqn:Er; [apply Qeq_bool_iff in Er; contradiction|].
  rewrite (pow_total _ _ Hp). fold g. simpl.
  destruct (Qeq_bool (g - 1) 0); reflexivity.
Qed.

Lemma installment_raises (amount rate : Q) (n : Z) :
  let r := rate / 100 / 12 in
  ~ r == 0 -> (n < 0)%Z -> 1 + r == 0 ->
  calculate_monthly_installment amount rate n = Raise ZeroDivisionError.
Proof.
  intros r Hr Hneg H1. unfold calculate_monthly_installment. fold r.
  assert (Hn : (n =? 0)%Z = false) by (apply Z.eqb_neq; lia).
  rewrite Hn.
  destruct (Qeq_bool r 0) eqn:Er; [apply Qeq_bool_iff in Er; contradiction|].
  unfold Py.pow. apply Qeq_bool_iff in H1. rewrite H1.
  apply Z.ltb_lt in Hneg. rewrite Hneg. reflexivity.
Qed.

End InstallmentBranches.

(** ** Eligibility: hard rejection, debt-burden guard, tiers *)

(** C1. If the principals of the customer's active loans (end date not
    before today) sum to more than the approved limit, the credit score is
    exactly 0, and the eligibility evaluation - for every requested
    amount, rate and tenure - rejects: approval is false, the rate is the
    requested one and the installment is zero; in particular this is the
    result whenever the evaluation reaches the scoring step. *)
Theorem hard_rejection_scores_zero :
  forall (db : list Loan) (today : date) (c : Customer)
         (amount rate : Q) (tenure_months : Z),
    (inject_Z (approved_limit c)
     < or_zero 0 (Sum sumQ (map loan_amount (active today (loans_of db c)))))%Q ->
    calculate_credit_score db today c = 0
    /\ (exists e,
          get_eligibility_status db today c amount rate tenure_months = Return e
          /\ approval e = false
          /\ corrected_interest_rate e = rate
          /\ feq (monthly_installment e) (Fin 0))
    /\ (over_burdened db today c = false ->
        get_eligibility_status db today c amount rate tenure_months
        = Return (mkEligibility false rate (round2 (Fin 0)))).
Proof.
  intros db today c amount rate n H.
  assert (Hs : calculate_credit_score db today c = 0).
  { unfold calculate_credit_score, current_loan_sum.
    apply Qltb_lt in H. now rewrite H. }
  assert (Hreach : over_burdened db today c = false ->
                   get_eligibility_status db today c amount rate n
                   = Return (mkEligibility false rate (round2 (Fin 0)))).
  { intro Hg. unfold get_eligibility_status. rewrite Hg, Hs. reflexivity. }
  split; [exact Hs|]. split; [|exact Hreach].
  destruct (over_burdened db today c) eqn:Hg.
  - exists (mkEligibility false rate (Fin 0)).
    unfold get_eligibility_status. rewrite Hg.
    repeat split; reflexivity.
  - exists (mkEligibility false rate (round2 (Fin 0))).
    rewrite (Hreach eq_refl). repeat split; reflexivity.
Qed.

Lemma hard_rejection_witness :
  calculate_credit_score [Samples.over_limit_loan] Samples.today Samples.john = 0
  /\ get_eligibility_status [Samples.over_limit_loan] Samples.today Samples.john
       100000 10 24
     = Return (mkEligibility false 10 (round2 (Fin 0))).
Proof.
  assert (H : (inject_Z (approved_limit Samples.john)
               < or_zero 0 (Sum sumQ (map loan_amount
                   (active Samples.today
                      (loans_of [Samples.over_limit_loan] Samples.john)))))%Q)
    by reflexivity.
  destruct (hard_rejection_scores_zero [Samples.over_limit_loan] Samples.today
              Samples.john 100000 10 24 H) as [Hs [_ Hr]].
  split; [exact Hs|exact (Hr eq_refl)].
Defined.

(** C2. If the monthly installments of the customer's active loans sum to
    more than half of the monthly salary, the evaluation returns approval
    false, the requested rate unchanged and installment 0, whatever the
    requested amount, rate and tenure; the credit score is not consulted:
    the result is fixed by the guard alone. *)
Theorem debt_burden_guard_rejects :
  forall (db : list Loan) (today : date) (c : Customer)
         (amount rate : Q) (tenure_months : Z),
    match or_zero (Fin 0)
            (Sum sumF (map monthly_repayment (active today (loans_of db c))))
    with
    | Fin total => (monthly_salary c * (1 # 2) < total)%Q
    | Inf => True
    end ->
    get_eligibility_status db today c amount rate tenure_months
    = Return (mkEligibility false rate (Fin 0)).
Proof.
  intros db today c amount rate n H.
  unfold get_eligibility_status, over_burdened.
  rewrite current_emis_active.
  destruct (or_zero _ _) as [total|]; simpl.
  - apply Qltb_lt in H. now rewrite H.
  - reflexivity.
Qed.

Lemma debt_burden_guard_witness :
  get_eligibility_status [Samples.john_loan] Samples.today Samples.john_poor
    5000 12 6
  = Return (mkEligibility false 12 (Fin 0)).
Proof.
  apply (debt_burden_guard_rejects [Samples.john_loan] Samples.today
           Samples.john_poor 5000 12 6).
  reflexivity.
Defined.

Lemma tier_defined (amount rate floor : Q) (n : Z) :
  (0 < floor)%Q ->
  exists x,
    calculate_monthly_installment amount (Py.max rate floor) n = Return x.
Proof.
  intro Hf. apply installment_defined.
  apply Qle_trans with floor; [apply Qlt_le_weak, Hf | apply max_ge_r].
Qed.

(** C3. The tiers are half-open as listed.  For every evaluation that
    passes the debt-burden guard: a score of exactly 50 is approved with
    corrected rate max(requested, 12.0) (whereas 51 keeps the requested
    rate), a score of exactly 30 is approved with corrected rate
    max(requested, 16.0) (whereas 31 has floor 12.0), and a score of
    exactly 10 is rejected (whereas 11 is approved with floor 16.0). *)
Theorem tier_boundaries_half_open :
  forall (db : list Loan) (today : date) (c : Customer)
         (amount rate : Q) (tenure_months : Z),
    over_burdened db today c = false ->
    let score := calculate_credit_score db today c in
    let result := get_eligibility_status db today c amount rate tenure_months in
    (score = 50 ->
     exists x,
       calculate_monthly_installment amount (Py.max rate 12) tenure_months
       = Return x
       /\ result = Return (mkEligibility true (Py.max rate 12) (round2 x)))
    /\ (score = 30 ->
        exists x,
          calculate_monthly_installment amount (Py.max rate 16) tenure_months
          = Return x
          /\ result = Return (mkEligibility true (Py.max rate 16) (round2 x)))
    /\ (score = 10 ->
        result = Return (mkEligibility false rate (round2 (Fin 0))))
    /\ tier 51 rate = (true, rate)
    /\ tier 50 rate = (true, Py.max rate 12)
    /\ tier 31 rate = (true, Py.max rate 12)
    /\ tier 30 rate = (true, Py.max rate 16)
    /\ tier 11 rate = (true, Py.max rate 16)
    /\ tier 10 rate = (false, rate).
Proof.
  intros db today c amount rate n Hg score result.
  subst score result. unfold get_eligibility_status. rewrite Hg.
  repeat split; try reflexivity.
  - intros ->.
    destruct (tier_defined amount rate 12 n) as [x Hx]; [reflexivity|].
    exists x. split; [exact Hx|]. simpl. rewrite Hx. reflexivity.
  - intros ->.
    destruct (tier_defined amount rate 16 n) as [x Hx]; [reflexivity|].
    exists x. split; [exact Hx|]. simpl. rewrite Hx. reflexivity.
  - intros ->. reflexivity.
Qed.

Lemma tier_boundaries_witness :
  (calculate_credit_score Samples.fifty_loans Samples.today Samples.fifty = 50
   /\ exists x,
        get_eligibility_status Samples.fifty_loans Samples.today Samples.fifty
          150000 8 36
        = Return (mkEligibility true 12 x))
  /\ (calculate_credit_score Samples.thirty_loans Samples.today Samples.thirty = 30
      /\ exists x,
           get_eligibility_status Samples.thirty_loans Samples.today Samples.thirty
             150000 8 36
           = Return (mkEligibility true 16 x)).
Proof.
  split.
  - split; [reflexivity|].
    destruct (tier_boundaries_half_open Samples.fifty_loans Samples.today
                Samples.fifty 150000 8 36 eq_refl) as [H50 _].
    destruct (H50 eq_refl) as [x [_ Hx]].
    exists (round2 x). exact Hx.
  - split; [reflexivity|].
    destruct (tier_boundaries_half_open Samples.thirty_loans Samples.today
                Samples.thirty 150000 8 36 eq_refl) as [_ [H30 _]].
    destruct (H30 eq_refl) as [x [_ Hx]].
    exists (round2 x). exact Hx.
Defined.

(** ** The range of the credit score *)

Section ScoreRange.
Local Open Scope Q_scope.






Lemma inject_Z_pos (z : Z) : (0 < z)%Z -> 0 < inject_Z z.
Proof. intro H. change 0 with (inject_Z 0). now rewrite <- Zlt_Qlt. Qed.







End ScoreRange.




(** Both conditions of the lower bound are used: on rows that no handler
    writes and the data model does not have, the score falls to 0 under a
    negative on-time counter and below the baseline under a negative
    principal (with all counters in range). *)
Lemma credit_score_below_baseline :
  (within_limit Samples.negative_counter_loans Samples.today Samples.thirty
   /\ calculate_credit_score Samples.negative_counter_loans Samples.today
        Samples.thirty = 0)
  /\ (within_limit Samples.negative_amount_loans Samples.today Samples.thirty
      /\ (forall l, In l (loans_of Samples.negative_amount_loans Samples.thirty) ->
                    0 <= emis_paid_on_time l <= tenure l)
      /\ calculate_credit_score Samples.negative_amount_loans Samples.today
           Samples.thirty = 15).
Proof.
  split; [split; [unfold within_limit; simpl; discriminate|reflexivity]|].
  split; [unfold within_limit; simpl; discriminate|].
  split; [|reflexivity].
  intros l [<-|[]]. simpl. lia.
Qed.

(** ** Customers without history *)

Section Newcomer.
Local Open Scope Q_scope.

Lemma raw_score_no_loans (today : date) (limit : Z) :
  raw_credit_score today limit [] == 25.
Proof.
  unfold raw_credit_score, paid_on_time_weight, num_loans_weight,
    loan_activity_weight, loan_volume_weight. simpl.
  destruct ((0 <? limit)%Z && Qle_bool 0 (inject_Z limit)).
  - unfold Py.min.
    destruct (Qltb 15 (0 / inject_Z limit * 15)) eqn:E.
    + apply Qltb_lt in E. exfalso.
      assert (0 / inject_Z limit * 15 == 0) as E0 by (unfold Qdiv; ring).
      rewrite E0 in E. discriminate E.
    + unfold Qdiv. change (inject_Z base_score) with 25.
      change (inject_Z (Z.min 0 20)) with 0. ring.
  - reflexivity.
Qed.

Lemma round_25 (x : Q) : x == 25 -> Py.round x = 25%Z.
Proof.
  intro H. apply Z.le_antisymm.
  - apply round_le. rewrite H. apply Qle_refl.
  - apply round_ge. rewrite H. apply Qle_refl.
Qed.

End Newcomer.

(** C5.  For every customer with no loans whose empty installment sum
    passes the salary guard: the score is exactly 25 (the baseline; all
    four weights are 0), and the evaluation approves with corrected rate
    max(requested, 16.0) and the rounded installment computed at that
    rate.  A customer's approved limit is not negative: registration
    derives it from a positive income ([approved_limit_nonneg]) and the
    data model has no other. *)
Theorem newcomer_scores_baseline :
  forall (db : list Loan) (today : date) (c : Customer)
         (amount rate : Q) (tenure_months : Z),
    0 <= approved_limit c ->
    loans_of db c = [] ->
    over_burdened db today c = false ->
    calculate_credit_score db today c = 25
    /\ exists x,
         calculate_monthly_installment amount (Py.max rate 16) tenure_months
         = Return x
         /\ get_eligibility_status db today c amount rate tenure_months
            = Return (mkEligibility true (Py.max rate 16) (round2 x)).
Proof.
  intros db today c amount rate n Hlim Hnone Hg.
  assert (Hs : calculate_credit_score db today c = 25).
  { unfold calculate_credit_score. rewrite Hnone.
    unfold current_loan_sum. simpl.
    assert (E : Qltb (inject_Z (approved_limit c)) 0 = false).
    { apply Qltb_ge. change 0%Q with (inject_Z 0). now rewrite <- Zle_Qle. }
    rewrite E. apply round_25, raw_score_no_loans. }
  split; [exact Hs|].
  destruct (tier_defined amount rate 16 n) as [x Hx]; [reflexivity|].
  exists x. split; [exact Hx|].
  unfold get_eligibility_status. rewrite Hg, Hs. simpl. rewrite Hx. reflexivity.
Qed.

Lemma newcomer_scores_baseline_witness :
  calculate_credit_score [Samples.john_loan] Samples.today Samples.newcomer = 25
  /\ exists x,
       get_eligibility_status [Samples.john_loan] Samples.today Samples.newcomer
         5000 12 6
       = Return (mkEligibility true 16 x).
Proof.
  assert (Hlim : 0 <= approved_limit Samples.newcomer) by (simpl; lia).
  destruct (newcomer_scores_baseline [Samples.john_loan] Samples.today
              Samples.newcomer 5000 12 6 Hlim eq_refl eq_refl)
    as [Hs [x [_ Hx]]].
  split; [exact Hs|]. exists (round2 x). exact Hx.
Defined.

(** The condition on the limit is used: on a row with a negative limit,
    which registration cannot write, the empty principal sum 0 already
    exceeds the limit and the early [return 0] is taken. *)
Lemma newcomer_negative_limit_rejected :
  loans_of [] Samples.negative_limit = []
  /\ over_burdened [] Samples.today Samples.negative_limit = false
  /\ calculate_credit_score [] Samples.today Samples.negative_limit = 0
  /\ get_eligibility_status [] Samples.today Samples.negative_limit 5000 12 6
     = Return (mkEligibility false 12 (round2 (Fin 0))).
Proof. repeat split; reflexivity. Qed.

(** ** The amortization calculator *)

Section Amortization.
Local Open Scope Q_scope.

(** C6.  With r = (annual rate / 100) / 12: a zero tenure gives the
    infinite sentinel; otherwise a zero r gives exactly principal / tenure;
    otherwise, with g = (1 + r) ** tenure, a zero g - 1 gives the infinite
    sentinel and any other value gives principal * r * g / (g - 1).  The
    result is this exact quotient: nothing is rounded.  The power exists
    unless 1 + r is zero and the tenure negative, where Python raises. *)
Theorem monthly_installment_formula :
  forall (amount rate : Q) (n : Z),
    let r := rate / 100 / 12 in
    let g := (1 + r) ^ n in
    (n = 0%Z -> calculate_monthly_installment amount rate n = Return Inf)
    /\ (n <> 0%Z -> r == 0 ->
        calculate_monthly_installment amount rate n
        = Return (Fin (amount / inject_Z n)))
    /\ (n <> 0%Z -> ~ r == 0 -> ((0 <= n)%Z \/ ~ 1 + r == 0) ->
        (g - 1 == 0 -> calculate_monthly_installment amount rate n = Return Inf)
        /\ (~ g - 1 == 0 ->
            calculate_monthly_installment amount rate n
            = Return (Fin (amount * r * g / (g - 1)))))
    /\ (n <> 0%Z -> ~ r == 0 -> (n < 0)%Z -> 1 + r == 0 ->
        calculate_monthly_installment amount rate n = Raise ZeroDivisionError).
Proof.
  intros amount rate n r g.
  split; [intros ->; apply installment_zero_tenure|].
  split; [apply installment_straight_line|].
  split.
  - intros Hn Hr Hp.
    rewrite (installment_reducing_balance amount rate n Hn Hr Hp).
    fold r. fold g.
    split; intro Hg.
    + apply Qeq_bool_iff in Hg. now rewrite Hg.
    + destruct (Qeq_bool (g - 1) 0) eqn:Eg;
        [apply Qeq_bool_iff in Eg; contradiction|reflexivity].
  - intros _. apply installment_raises.
Qed.

Lemma monthly_installment_formula_witness :
  calculate_monthly_installment 50000 8 0 = Return Inf
  /\ calculate_monthly_installment 50000 0 12 = Return (Fin (50000 / 12))
  /\ calculate_monthly_installment 50000 8 12
     = Return (Fin (50000 * (8 / 100 / 12) * (1 + 8 / 100 / 12) ^ 12
                    / ((1 + 8 / 100 / 12) ^ 12 - 1)))
  /\ calculate_monthly_installment 50000 (-2400) 2 = Return Inf
  /\ calculate_monthly_installment 50000 (-1200) (-1) = Raise ZeroDivisionError.
Proof.
  destruct (monthly_installment_formula 50000 8 0) as [H0 _].
  destruct (monthly_installment_formula 50000 0 12) as [_ [Hz _]].
  destruct (monthly_installment_formula 50000 8 12) as [_ [_ [Hf _]]].
  destruct (monthly_installment_formula 50000 (-2400) 2) as [_ [_ [Hi _]]].
  destruct (monthly_installment_formula 50000 (-1200) (-1)) as [_ [_ [_ He]]].
  split; [exact (H0 eq_refl)|].
  split; [apply Hz; [discriminate|reflexivity]|].
  split; [apply Hf; [discriminate|discriminate|left; discriminate|discriminate]|].
  split; [apply Hi; [discriminate|discriminate|left; discriminate|reflexivity]|].
  apply He; [discriminate|discriminate|reflexivity|reflexivity].
Defined.

(** The figures of the specification's example: 50000 at 8% over 12
    months costs between 4349 and 4350 a month. *)
Example installment_50000_8_12 :
  exists q, calculate_monthly_installment 50000 8 12 = Return (Fin q)
            /\ 4349 < q < 4350.
Proof. eexists. split; [reflexivity|]. split; reflexivity. Qed.

End Amortization.

(** ** Installments of validated requests *)

Section ValidatedRequests.
Local Open Scope Q_scope.

Lemma monthly_rate_nonneg (rate : Q) : 0 <= rate -> 0 <= rate / 100 / 12.
Proof.
  intro H. unfold Qdiv.
  repeat apply Qmult_le_0_compat; try assumption; discriminate.
Qed.

(** Under the schema's constraints the calculator returns a finite,
    strictly positive amount. *)
Lemma installment_positive (amount rate : Q) (n : Z) :
  0 < amount -> 0 <= rate -> (1 <= n)%Z ->
  exists q, calculate_monthly_installment amount rate n = Return (Fin q)
            /\ 0 < q.
Proof.
  intros Ha Hr Hn.
  pose proof (monthly_rate_nonneg rate Hr) as Hr0.
  assert (Hn0 : n <> 0%Z) by lia.
  assert (Hnq : 0 < inject_Z n) by (apply inject_Z_pos; lia).
  destruct (Qeq_dec (rate / 100 / 12) 0) as [E|E].
  - exists (amount / inject_Z n).
    split; [apply installment_straight_line; assumption|].
    apply Qlt_shift_div_l; [exact Hnq|]. lra.
  - rewrite (installment_reducing_balance amount rate n Hn0 E)
      by (left; lia).
    set (r := rate / 100 / 12) in *.
    assert (Hrpos : 0 < r).
    { apply Qnot_le_lt. intro Hle. apply E. apply Qle_antisym; assumption. }
    assert (Hg : 1 < (1 + r) ^ n).
    { apply Qpower_1_lt; [lra|lia]. }
    set (g := (1 + r) ^ n) in *.
    destruct (Qeq_bool (g - 1) 0) eqn:Eg.
    { apply Qeq_bool_iff in Eg. exfalso. lra. }
    exists (amount * r * g / (g - 1)). split; [reflexivity|].
    apply Qlt_shift_div_l; [lra|].
    assert (0 < amount * r) by (apply Qmult_lt_0_compat; assumption).
    assert (0 < amount * r * g) by (apply Qmult_lt_0_compat; lra).
    lra.
Qed.

Lemma round2_nonneg (q : Q) :
  0 <= q -> exists q', round2 (Fin q) = Fin q' /\ 0 <= q'.
Proof.
  intro H. eexists. split; [reflexivity|].
  assert (0 <= Py.round (q * 100))%Z.
  { apply round_ge. change (inject_Z 0) with 0. lra. }
  apply Qle_shift_div_l; [reflexivity|].
  rewrite Zle_Qle in H0. change (inject_Z 0) with 0 in H0. lra.
Qed.

Lemma tier_rate_nonneg (s : Z) (rate : Q) :
  0 <= rate -> 0 <= snd (tier s rate).
Proof.
  intro H. unfold tier.
  destruct (50 <? s)%Z; [exact H|].
  destruct ((30 <? s)%Z && (s <=? 50)%Z);
    [apply Qle_trans with rate; [exact H|apply max_ge_l]|].
  destruct ((10 <? s)%Z && (s <=? 30)%Z);
    [apply Qle_trans with rate; [exact H|apply max_ge_l]|exact H].
Qed.

(** C10, as the code has it.  For a request that satisfies the schema
    (loan_amount > 0, interest_rate >= 0, tenure >= 1), in exact
    arithmetic: the calculator returns a finite, strictly positive amount
    and never the infinite sentinel; the eligibility evaluation returns
    normally, and an approved result carries that amount, computed at the
    corrected rate, rounded to two decimals - a finite, non-negative
    installment. *)
Theorem validated_installment_finite :
  forall (db : list Loan) (today : date) (c : Customer)
         (amount rate : Q) (n : Z),
    0 < amount -> 0 <= rate -> (1 <= n)%Z ->
    (exists q, calculate_monthly_installment amount rate n = Return (Fin q)
               /\ 0 < q)
    /\ exists e,
         get_eligibility_status db today c amount rate n = Return e
         /\ (approval e = true ->
             exists q q',
               calculate_monthly_installment amount (corrected_interest_rate e) n
               = Return (Fin q)
               /\ 0 < q
               /\ monthly_installment e = round2 (Fin q)
               /\ monthly_installment e = Fin q'
               /\ 0 <= q').
Proof.
  intros db today c amount rate n Ha Hr Hn.
  split; [apply installment_positive; assumption|].
  unfold get_eligibility_status.
  destruct (over_burdened db today c).
  { eexists. split; [reflexivity|]. simpl. discriminate. }
  pose proof (tier_rate_nonneg (calculate_credit_score db today c) rate Hr) as Hc.
  destruct (tier (calculate_credit_score db today c) rate) as [approved corrected].
  simpl in Hc.
  destruct approved.
  - destruct (installment_positive amount corrected n Ha Hc Hn) as [q [Hq Hpos]].
    rewrite Hq. simpl.
    eexists. split; [reflexivity|]. simpl. intros _.
    destruct (round2_nonneg q (Qlt_le_weak _ _ Hpos)) as [q' [Hq' Hnn]].
    exists q, q'. repeat split; assumption.
  - eexists. split; [reflexivity|]. simpl. discriminate.
Qed.

Lemma validated_installment_finite_witness :
  exists q,
    get_eligibility_status Samples.fifty_loans Samples.today Samples.fifty
      150000 8 36
    = Return (mkEligibility true 12 (Fin q))
    /\ 0 <= q.
Proof.
  destruct (validated_installment_finite Samples.fifty_loans Samples.today
              Samples.fifty 150000 8 36)
    as [_ [e [He Happ]]]; [reflexivity|discriminate|lia|].
  assert (Hv : get_eligibility_status Samples.fifty_loans Samples.today
                 Samples.fifty 150000 8 36
               = Return (mkEligibility true 12
                           (round2 (Fin (150000 * (12 / 100 / 12)
                                         * (1 + 12 / 100 / 12) ^ 36
                                         / ((1 + 12 / 100 / 12) ^ 36 - 1))))))
    by reflexivity.
  rewrite Hv in He. injection He as <-.
  destruct (Happ eq_refl) as [q [q' [_ [_ [_ [Hq' Hnn]]]]]].
  exists q'. simpl in Hq'. split; [|exact Hnn].
  rewrite Hv. f_equal. f_equal. exact Hq'.
Defined.

(** C10 as stated fails in its last part: the installment an approved
    result carries is rounded to two decimals, so that a small enough loan
    is approved with installment 0. *)
Lemma approved_installment_rounds_to_zero :
  (exists q,
     get_eligibility_status [] Samples.today Samples.newcomer (1 # 100) 8 12
     = Return (mkEligibility true 16 (Fin q))
     /\ q == 0)
  /\ ~ (forall db today c amount rate n e,
          0 < amount -> 0 <= rate -> (1 <= n)%Z ->
          get_eligibility_status db today c amount rate n = Return e ->
          approval e = true ->
          exists q, monthly_installment e = Fin q /\ 0 < q).
Proof.
  assert (H : get_eligibility_status [] Samples.today Samples.newcomer
                (1 # 100) 8 12
              = Return (mkEligibility true 16 (Fin (0 / 100))))
    by reflexivity.
  split.
  - exists (0 / 100). split; [exact H|reflexivity].
  - intro Hall.
    assert (H8 : 0 <= 8) by discriminate.
    assert (H12 : (1 <= 12)%Z) by lia.
    assert (Ha : 0 < 1 # 100) by reflexivity.
    destruct (Hall _ _ _ _ _ _ _ Ha H8 H12 H eq_refl) as [q [Hq Hpos]].
    simpl in Hq. injection Hq as <-. discriminate Hpos.
Qed.

End ValidatedRequests.

(** ** Loan issuance and registration *)

Section HandlerProperties.

Variable LoanSerializer_is_valid : Loan -> bool.
Variable next_loan_id : list Loan -> Z.


(** C7.  When the eligibility evaluation of a create-loan request returns
    approval false, the store after the request is the store before it (no
    loan is saved), and the response is the 200 answer with loan_id null,
    loan_approved false, monthly_installment 0 and the rejection
    message. *)
Theorem rejected_request_creates_no_loan :
  forall (st : Store) (today : date) (req : LoanRequestSchema.t)
         (c : Customer) (e : Eligibility),
    LoanRequestSchema.validate req = Some req ->
    get_customer (customers st) (LoanRequestSchema.customer_id req) = Some c ->
    get_eligibility_status (loans st) today c
      (LoanRequestSchema.loan_amount req)
      (LoanRequestSchema.interest_rate req)
      (LoanRequestSchema.tenure req) = Return e ->
    approval e = false ->
    create_loan LoanSerializer_is_valid next_loan_id st today req
    = Return
        (mkResponse
           (LoanResult None (LoanRequestSchema.customer_id req) false
              "Loan not approved based on eligibility check." (Fin 0))
           HTTP_200_OK,
         st).
Proof.
  intros st today req c e Hv Hc He Ha.
  unfold create_loan. rewrite Hv, Hc, He. simpl. rewrite Ha.
  reflexivity.
Qed.

(** X8.  Whatever the request, [create_loan] never touches the customers;
    a response other than 201 leaves the whole store as it was, and a 201
    appends exactly one loan. *)
Lemma create_loan_frame :
  forall (st st' : Store) (today : date) (req : LoanRequestSchema.t)
         (r : Response),
    create_loan LoanSerializer_is_valid next_loan_id st today req
    = Return (r, st') ->
    customers st' = customers st
    /\ ((status r <> HTTP_201_CREATED /\ st' = st)
        \/ (status r = HTTP_201_CREATED
            /\ exists l, loans st' = loans st ++ [l])).
Proof.
  intros st st' today req r. unfold create_loan.
  destruct (LoanRequestSchema.validate req) as [v|].
  2:{ intro H. injection H as <- <-. split; [reflexivity|]. left.
      split; [discriminate|reflexivity]. }
  destruct (get_customer _ _) as [c|].
  2:{ intro H. injection H as <- <-. split; [reflexivity|]. left.
      split; [discriminate|reflexivity]. }
  destruct (get_eligibility_status _ _ _ _ _ _) as [e|err]; simpl;
    [|discriminate].
  destruct (approval e); simpl.
  - destruct (LoanSerializer_is_valid _).
    + intro H. injection H as <- <-. split; [reflexivity|]. right.
      split; [reflexivity|]. eexists. reflexivity.
    + intro H. injection H as <- <-. split; [reflexivity|]. left.
      split; [discriminate|reflexivity].
  - intro H. injection H as <- <-. split; [reflexivity|]. left.
    split; [discriminate|reflexivity].
Qed.

End HandlerProperties.

Lemma rejected_request_witness :
  create_loan Samples.accept_loan Samples.next_loan_id Samples.poor_store
    Samples.today Samples.rejected_request
  = Return
      (mkResponse
         (LoanResult None 1 false
            "Loan not approved based on eligibility check." (Fin 0))
         HTTP_200_OK,
       Samples.poor_store).
Proof.
  apply (rejected_request_creates_no_loan Samples.accept_loan
           Samples.next_loan_id Samples.poor_store Samples.today
           Samples.rejected_request Samples.john_poor
           (mkEligibility false 12 (Fin 0)));
    reflexivity.
Defined.

Section Registration.
Local Open Scope Q_scope.

Variable CustomerSerializer_is_valid : Customer -> bool.
Variable next_customer_id : list Customer -> Z.


Lemma approved_limit_multiple (income : Q) :
  (compute_approved_limit income mod 100000 = 0)%Z.
Proof. unfold compute_approved_limit. apply Z.mod_mul. discriminate. Qed.

(** The limit is a nearest multiple of 100000 to 36 times the income. *)
Lemma approved_limit_nearest (income : Q) :
  36 * income - 50000 <= inject_Z (compute_approved_limit income)
  <= 36 * income + 50000.
Proof.
  unfold compute_approved_limit.
  pose proof (round_near (36 * income / 100000)) as [Hlo Hhi].
  rewrite inject_Z_mult. change (inject_Z 100000) with 100000.
  set (k := inject_Z (Py.round (36 * income / 100000))) in *.
  assert (E : 36 * income / 100000 * 100000 == 36 * income)
    by (field; discriminate).
  set (y := 36 * income / 100000) in *.
  split; lra.
Qed.

(** C8.  Every registration with monthly_income > 0 that is answered 201
    stores a customer whose approved_limit is
    round(36 * monthly_income / 100000) * 100000, and reports that value;
    it is a multiple of 100000 within 50000 of 36 * monthly_income (a
    nearest multiple).  An income of 75000 yields 2700000. *)
Theorem registration_approved_limit :
  forall (st st' : Store) (fields : RegisterCustomerSchema.t) (r : Response),
    0 < RegisterCustomerSchema.monthly_income fields ->
    register_customer CustomerSerializer_is_valid next_customer_id st
      (Dict fields) = (r, st') ->
    status r = HTTP_201_CREATED ->
    let income := RegisterCustomerSchema.monthly_income fields in
    let limit := (Py.round (36 * income / 100000) * 100000)%Z in
    (exists c,
       st' = mkStore (customers st ++ [c]) (loans st)
       /\ approved_limit c = limit
       /\ monthly_salary c = income
       /\ data r
          = CustomerCreated (customer_id c)
              (RegisterCustomerSchema.first_name fields ++ " "
               ++ RegisterCustomerSchema.last_name fields)
              (RegisterCustomerSchema.age fields) income limit
              (RegisterCustomerSchema.phone_number fields))
    /\ (limit mod 100000 = 0)%Z
    /\ 36 * income - 50000 <= inject_Z limit <= 36 * income + 50000
    /\ compute_approved_limit 75000 = 2700000%Z.
Proof.
  intros st st' fields r Hinc Hreg H201 income limit.
  split; [|split; [apply approved_limit_multiple|
                   split; [apply approved_limit_nearest|reflexivity]]].
  unfold register_customer in Hreg.
  unfold RegisterCustomerSchema.validate in Hreg.
  destruct ((0 <? RegisterCustomerSchema.age fields)%Z
            && Qltb 0 (RegisterCustomerSchema.monthly_income fields)).
  2:{ injection Hreg as <- <-. discriminate H201. }
  destruct (CustomerSerializer_is_valid _).
  2:{ injection Hreg as <- <-. discriminate H201. }
  injection Hreg as <- <-.
  eexists. repeat split.
Qed.

End Registration.

Lemma registration_approved_limit_witness :
  exists c,
    snd (register_customer Samples.accept_customer Samples.next_customer_id
           Samples.store (Dict Samples.jane))
    = mkStore [Samples.john; c] [Samples.john_loan]
    /\ approved_limit c = 2700000.
Proof.
  assert (Hinc : (0 < RegisterCustomerSchema.monthly_income Samples.jane)%Q)
    by reflexivity.
  destruct (registration_approved_limit Samples.accept_customer
              Samples.next_customer_id Samples.store
              (snd (register_customer Samples.accept_customer
                      Samples.next_customer_id Samples.store (Dict Samples.jane)))
              Samples.jane
              (fst (register_customer Samples.accept_customer
                      Samples.next_customer_id Samples.store (Dict Samples.jane)))
              Hinc eq_refl eq_refl)
    as [[c [Hst [Hlim _]]] _].
  exists c. split; [exact Hst|exact Hlim].
Defined.

(** ** Remaining repayments *)

Section Dates.
Import RelativeDelta.

Lemma date_ltb_index (a b : date) :
  1 <= month a <= 12 -> 1 <= month b <= 12 ->
  (date_ltb a b = true <->
   month_index a < month_index b
   \/ (month_index a = month_index b /\ day a < day b)).
Proof.
  intros Ha Hb. unfold date_ltb, month_index.
  rewrite !orb_true_iff, !andb_true_iff, !orb_true_iff, !andb_true_iff,
    !Z.ltb_lt, !Z.eqb_eq.
  lia.
Qed.

Lemma set_months_nonneg (m : Z) :
  0 <= m ->
  0 <= fst (set_months m) /\ 0 <= snd (set_months m) <= 11
  /\ fst (set_months m) * 12 + snd (set_months m) = m.
Proof.
  intro H. unfold set_months, sign.
  destruct (11 <? Z.abs m) eqn:E; simpl.
  - destruct (m <? 0) eqn:S; [apply Z.ltb_lt in S; lia|].
    rewrite !Z.mul_1_r.
    pose proof (Z.div_mod m 12). pose proof (Z.mod_pos_bound m 12).
    assert (0 <= m / 12) by (apply Z.div_pos; lia).
    lia.
  - apply Z.ltb_ge in E. lia.
Qed.

Lemma days_in_month_pos (y m : Z) : 28 <= days_in_month y m <= 31.
Proof.
  unfold days_in_month.
  destruct (m =? 2); [destruct (isleap y); lia|].
  destruct ((m =? 4) || (m =? 6) || (m =? 9) || (m =? 11)); lia.
Qed.

Lemma radd_index (ym : Z * Z) (other : date) :
  1 <= month other <= 12 -> 0 <= snd ym <= 11 ->
  let d := radd ym other in
  month_index d = month_index other + fst ym * 12 + snd ym
  /\ 1 <= month d <= 12
  /\ day d = Z.min (days_in_month (year d) (month d)) (day other).
Proof.
  intros Hm Hs. destruct ym as [yrs mths]. simpl in Hs.
  unfold radd, month_index.
  destruct (mths =? 0) eqn:E0.
  - apply Z.eqb_eq in E0. simpl. lia.
  - destruct (12 <? month other + mths) eqn:E1.
    + apply Z.ltb_lt in E1. simpl. lia.
    + apply Z.ltb_ge in E1.
      destruct (month other + mths <? 1) eqn:E2.
      * apply Z.ltb_lt in E2. simpl. lia.
      * apply Z.ltb_ge in E2. simpl. lia.
Qed.

Lemma radd_zero (other : date) :
  valid_date other -> radd (set_months 0) other = other.
Proof.
  intros [Hy [Hm Hd]]. unfold set_months, radd. simpl.
  rewrite Z.add_0_r. destruct other as [y m d]. simpl in *.
  f_equal. lia.
Qed.

(** The loop started from the month difference of two valid dates
    [dt2 <= dt1] stops after at most one step. *)
Lemma adjust_backward (fuel : nat) (dt1 dt2 : date) :
  valid_date dt1 -> valid_date dt2 -> date_ltb dt1 dt2 = false ->
  (1 <= fuel)%nat ->
  let m0 := (year dt1 - year dt2) * 12 + (month dt1 - month dt2) in
  exists m,
    adjust fuel dt1 dt2 false m0 = Some m
    /\ 0 <= m
    /\ (m = m0 \/ m = m0 - 1)
    /\ date_ltb dt1 (radd (set_months m) dt2) = false.
Proof.
  intros V1 V2 Hle Hfuel m0.
  destruct V1 as [Hy1 [Hm1 Hd1]]. pose proof V2 as [Hy2 [Hm2 Hd2]].
  assert (Hle' : ~ (month_index dt1 < month_index dt2
                    \/ (month_index dt1 = month_index dt2 /\ day dt1 < day dt2))).
  { rewrite <- date_ltb_index by assumption. congruence. }
  assert (Hm0 : 0 <= m0) by (unfold month_index in Hle'; lia).
  destruct fuel as [|fuel]; [lia|].
  pose proof (set_months_nonneg m0 Hm0) as [Sy [Sm Se]].
  pose proof (radd_index (set_months m0) dt2 Hm2 Sm) as [Ri [Rm Rd]].
  simpl.
  destruct (date_ltb dt1 (radd (set_months m0) dt2)) eqn:Ov.
  - (* one step back *)
    apply date_ltb_index in Ov; [|assumption|assumption].
    assert (Hpos : 1 <= m0).
    { destruct (Z.eq_dec m0 0) as [Z0|]; [|lia].
      exfalso. rewrite Z0 in Ov. rewrite (radd_zero dt2 V2) in Ov. tauto. }
    assert (Hm1' : 0 <= m0 + -1) by lia.
    pose proof (set_months_nonneg (m0 + -1) Hm1') as [Sy' [Sm' Se']].
    pose proof (radd_index (set_months (m0 + -1)) dt2 Hm2 Sm') as [Ri' [Rm' Rd']].
    assert (Stop : date_ltb dt1 (radd (set_months (m0 + -1)) dt2) = false).
    { apply not_true_is_false. intro T.
      apply date_ltb_index in T; [|assumption|assumption].
      unfold month_index in *. lia. }
    exists (m0 + -1). 
    destruct fuel; simpl; rewrite Stop; repeat split; auto; lia.
  - exists m0. repeat split; auto.
Qed.


Lemma carry_exact (limit unit k hi : Z) :
  0 <= limit < unit -> carry limit unit (k * unit) hi = (0, hi + k).
Proof.
  intro H. unfold carry, sign.
  destruct (limit <? Z.abs (k * unit)) eqn:E.
  - destruct (k * unit <? 0) eqn:S; cbv zeta.
    + replace (k * unit * -1) with (- k * unit) by ring.
      rewrite Z.mod_mul, Z.div_mul by lia. f_equal. lia.
    + rewrite !Z.mul_1_r, Z.mod_mul, Z.div_mul by lia. f_equal.
  - apply Z.ltb_ge in E. assert (k = 0) by nia. subst k. f_equal. lia.
Qed.

Lemma carry_small (limit unit lo hi : Z) :
  Z.abs lo <= limit -> carry limit unit lo hi = (lo, hi).
Proof.
  intro H. unfold carry. apply Z.ltb_ge in H. now rewrite H.
Qed.

Lemma fix_days (y m dd : Z) :
  Z.abs m <= 11 ->
  fix_ (mk y m 0 0 0 (0 + dd * 86400)) = mk y m dd 0 0 0.
Proof.
  intro H. unfold fix_. cbn [seconds minutes hours days months years].
  replace (0 + dd * 86400) with (dd * 1440 * 60) by ring.
  rewrite carry_exact by lia.
  replace (0 + dd * 1440) with (dd * 24 * 60) by ring.
  rewrite carry_exact by lia.
  replace (0 + dd * 24) with (dd * 24) by ring.
  rewrite carry_exact by lia.
  rewrite carry_small by lia. reflexivity.
Qed.

(** *** Ordinals are monotone *)

Lemma days_before_year_succ (y : Z) :
  days_before_year (y + 1)
  = days_before_year y + 365 + (if isleap y then 1 else 0).
Proof.
  unfold days_before_year, isleap.
  replace (y + 1 - 1) with y by ring.
  destruct (y mod 4 =? 0) eqn:E4; destruct (y mod 100 =? 0) eqn:E100;
    destruct (y mod 400 =? 0) eqn:E400; simpl;
    rewrite ?Z.eqb_eq, ?Z.eqb_neq in *;
    Z.div_mod_to_equations; lia.
Qed.

Lemma days_before_year_mono (a b : Z) :
  a <= b -> days_before_year a <= days_before_year b.
Proof.
  intro H. unfold days_before_year. Z.div_mod_to_equations. lia.
Qed.

Lemma month_cases (m : Z) :
  1 <= m <= 12 ->
  m = 1 \/ m = 2 \/ m = 3 \/ m = 4 \/ m = 5 \/ m = 6 \/ m = 7 \/ m = 8
  \/ m = 9 \/ m = 10 \/ m = 11 \/ m = 12.
Proof. lia. Qed.

Ltac each_month H :=
  apply month_cases in H;
  repeat (destruct H as [H|H]; [rewrite H in *; clear H|]);
  [..|rewrite H in *; clear H].

(** Evaluates the calendar tables at literal months, by cases on the leap
    year test. *)
Ltac calendar y :=
  unfold days_before_month in *;
  repeat match goal with
         | |- context [Z.to_nat ?c] =>
             let n := eval compute in (Z.to_nat c) in
             change (Z.to_nat c) with n
         end;
  cbn [days_before_month_aux] in *;
  unfold days_in_month in *;
  destruct (isleap y);
  cbn [Z.of_nat Pos.of_succ_nat Pos.succ Z.eqb Pos.eqb orb] in *; lia.

Lemma day_of_year_range (y m d : Z) :
  1 <= m <= 12 -> 1 <= d <= days_in_month y m ->
  1 <= days_before_month y m + d <= 365 + (if isleap y then 1 else 0).
Proof.
  intros Hm Hd. each_month Hm; calendar y.
Qed.

Lemma day_of_year_mono (y m1 d1 m2 d2 : Z) :
  1 <= m1 <= 12 -> 1 <= d1 <= days_in_month y m1 ->
  1 <= m2 <= 12 -> 1 <= d2 <= days_in_month y m2 ->
  m1 < m2 ->
  days_before_month y m1 + d1 < days_before_month y m2 + d2.
Proof.
  intros Hm1 Hd1 Hm2 Hd2 Hlt.
  each_month Hm1; each_month Hm2; try lia; calendar y.
Qed.

Lemma toordinal_lt (a b : date) :
  1 <= month a <= 12 -> 1 <= day a <= days_in_month (year a) (month a) ->
  1 <= month b <= 12 -> 1 <= day b <= days_in_month (year b) (month b) ->
  date_ltb a b = true -> toordinal a < toordinal b.
Proof.
  intros Hma Hda Hmb Hdb Hlt. unfold toordinal.
  unfold date_ltb in Hlt.
  rewrite !orb_true_iff, !andb_true_iff, !orb_true_iff, !andb_true_iff,
    !Z.ltb_lt, !Z.eqb_eq in Hlt.
  destruct Hlt as [Hy|[Hy [Hm|[Hm Hd]]]].
  - pose proof (day_of_year_range _ _ _ Hma Hda).
    pose proof (day_of_year_range _ _ _ Hmb Hdb).
    pose proof (days_before_year_succ (year a)).
    pose proof (days_before_year_mono (year a + 1) (year b)).
    lia.
  - rewrite Hy in *.
    pose proof (day_of_year_mono _ _ _ _ _ Hma Hda Hmb Hdb Hm). lia.
  - rewrite Hy, Hm. lia.
Qed.

Lemma date_not_ltb_eq (a b : date) :
  date_ltb a b = false -> date_ltb b a = false -> a = b.
Proof.
  unfold date_ltb. destruct a as [y m d], b as [y' m' d']. simpl.
  rewrite !orb_false_iff, !andb_false_iff, !orb_false_iff, !andb_false_iff,
    !Z.ltb_ge, !Z.eqb_neq.
  intros H1 H2.
  assert (y = y') by lia. subst y'.
  assert (m = m') by lia. subst m'.
  assert (d = d') by lia. subst d'. reflexivity.
Qed.


Lemma date_ltb_irrefl (a : date) : date_ltb a a = false.
Proof.
  unfold date_ltb. rewrite !Z.ltb_irrefl, !Z.eqb_refl. reflexivity.
Qed.

Lemma toordinal_le (a b : date) :
  1 <= month a <= 12 -> 1 <= day a <= days_in_month (year a) (month a) ->
  1 <= month b <= 12 -> 1 <= day b <= days_in_month (year b) (month b) ->
  date_ltb b a = false -> toordinal a <= toordinal b.
Proof.
  intros Hma Hda Hmb Hdb Hle.
  destruct (date_ltb a b) eqn:E.
  - apply Z.lt_le_incl, toordinal_lt; assumption.
  - rewrite (date_not_ltb_eq a b E Hle). lia.
Qed.

(** The difference of two valid dates [dt2 <= dt1]: whole months, then
    days, none of them negative. *)
Lemma between_backward (fuel : nat) (dt1 dt2 : date) :
  valid_date dt1 -> valid_date dt2 -> date_ltb dt1 dt2 = false ->
  (1 <= fuel)%nat ->
  exists delta,
    between fuel dt1 dt2 = Some delta
    /\ 0 <= years delta /\ 0 <= months delta <= 11
    /\ days delta
       = toordinal dt1 - toordinal (radd (years delta, months delta) dt2)
    /\ 0 <= days delta
    /\ date_ltb dt1 (radd (years delta, months delta) dt2) = false.
Proof.
  intros V1 V2 Hle Hfuel.
  destruct (adjust_backward fuel dt1 dt2 V1 V2 Hle Hfuel) as [m [Hadj [Hm [_ Hstop]]]].
  unfold between. rewrite Hle, Hadj.
  pose proof (set_months_nonneg m Hm) as [Sy [Sm _]].
  destruct V1 as [_ [Hm1 Hd1]]. destruct V2 as [_ [Hm2 Hd2]].
  pose proof (radd_index (set_months m) dt2 Hm2 Sm) as [_ [Rm Rd]].
  pose proof (days_in_month_pos (year (radd (set_months m) dt2))
                (month (radd (set_months m) dt2))) as Hdim.
  rewrite fix_days by lia.
  eexists. split; [reflexivity|]. cbn [years months days].
  rewrite <- surjective_pairing.
  repeat split; try lia; try assumption.
  assert (toordinal (radd (set_months m) dt2) <= toordinal dt1).
  { apply toordinal_le; try assumption. lia. }
  lia.
Qed.

(** C9.  For valid dates: an end date strictly before today gives 0; an
    end date equal to today gives 0; otherwise (with at least one loop
    iteration allowed, which always suffices) the result is
    years * 12 + months of the relative delta from today to the end date,
    plus 1 when the delta has remaining days, where the delta's years and
    months are non-negative and its days are the days from today shifted
    by those months up to the end date; the result is a non-negative
    integer. *)
Theorem repayments_left_spec :
  forall (fuel : nat) (today end_ : date),
    valid_date today -> valid_date end_ ->
    (date_ltb end_ today = true -> get_repayments_left fuel today end_ = Some 0)
    /\ (end_ = today -> get_repayments_left fuel today end_ = Some 0)
    /\ (date_ltb end_ today = false -> (1 <= fuel)%nat ->
        exists delta,
          between fuel end_ today = Some delta
          /\ 0 <= years delta /\ 0 <= months delta <= 11
          /\ days delta
             = toordinal end_
               - toordinal (radd (years delta, months delta) today)
          /\ 0 <= days delta
          /\ get_repayments_left fuel today end_
             = Some (years delta * 12 + months delta
                     + (if 0 <? days delta then 1 else 0))
          /\ 0 <= years delta * 12 + months delta
                  + (if 0 <? days delta then 1 else 0)).
Proof.
  intros fuel today end_ Vt Ve.
  split; [|split].
  - intro H. unfold get_repayments_left. now rewrite H.
  - intros ->. unfold get_repayments_left, between.
    rewrite date_ltb_irrefl.
    replace ((year today - year today) * 12 + (month today - month today))
      with 0 by ring.
    assert (Hadj : adjust fuel today today false 0 = Some 0).
    { destruct fuel; cbn [adjust];
        rewrite (radd_zero today Vt), date_ltb_irrefl; reflexivity. }
    rewrite Hadj, (radd_zero today Vt), Z.sub_diag.
    reflexivity.
  - intros Hle Hfuel.
    destruct (between_backward fuel end_ today Ve Vt Hle Hfuel)
      as [delta [Hb [Hy [Hm [Hd [Hd0 _]]]]]].
    exists delta. unfold get_repayments_left. rewrite Hle, Hb.
    repeat split; try assumption; try lia;
      destruct (0 <? days delta); try reflexivity; try lia.
    f_equal. lia.
Qed.

End Dates.

Lemma repayments_left_witness :
  get_repayments_left 1 Samples.today (mkdate 2026 3 20) = Some 7
  /\ get_repayments_left 1 Samples.today (mkdate 2026 3 15) = Some 6
  /\ get_repayments_left 1 Samples.today Samples.today = Some 0
  /\ get_repayments_left 1 Samples.today (mkdate 2025 9 14) = Some 0.
Proof.
  assert (Vt : valid_date Samples.today) by (unfold valid_date; cbn; lia).
  assert (V1 : valid_date (mkdate 2026 3 20)) by (unfold valid_date; cbn; lia).
  assert (V2 : valid_date (mkdate 2026 3 15)) by (unfold valid_date; cbn; lia).
  assert (V3 : valid_date (mkdate 2025 9 14)) by (unfold valid_date; cbn; lia).
  destruct (repayments_left_spec 1 Samples.today (mkdate 2026 3 20) Vt V1)
    as [_ [_ H1]].
  destruct (repayments_left_spec 1 Samples.today (mkdate 2026 3 15) Vt V2)
    as [_ [_ H2]].
  destruct (repayments_left_spec 1 Samples.today Samples.today Vt Vt)
    as [_ [H3 _]].
  destruct (repayments_left_spec 1 Samples.today (mkdate 2025 9 14) Vt V3)
    as [H4 _].
  destruct (H1 eq_refl (le_n 1)) as [d1 [B1 [_ [_ [_ [_ [R1 _]]]]]]].
  destruct (H2 eq_refl (le_n 1)) as [d2 [B2 [_ [_ [_ [_ [R2 _]]]]]]].
  split; [|split; [|split; [exact (H3 eq_refl)|exact (H4 eq_refl)]]].
  - rewrite R1. injection B1 as <-. reflexivity.
  - rewrite R2. injection B2 as <-. reflexivity.
Defined.

(** ** Further properties of the eligibility decision *)

Section EligibilityDecision.
Local Open Scope Q_scope.

(** The two ways [get_eligibility_status] returns. *)
Lemma eligibility_cases (db : list Loan) (today : date) (c : Customer)
      (amount rate : Q) (n : Z) (e : Eligibility) :
  get_eligibility_status db today c amount rate n = Return e ->
  (over_burdened db today c = true /\ e = mkEligibility false rate (Fin 0))
  \/ (over_burdened db today c = false
      /\ approval e = fst (tier (calculate_credit_score db today c) rate)
      /\ corrected_interest_rate e
         = snd (tier (calculate_credit_score db today c) rate)
      /\ exists x,
           (if approval e
            then calculate_monthly_installment amount
                   (corrected_interest_rate e) n
            else Return (Fin 0)) = Return x
           /\ monthly_installment e = round2 x).
Proof.
  unfold get_eligibility_status.
  destruct (over_burdened db today c).
  - intro H. injection H as <-. left. split; reflexivity.
  - destruct (tier (calculate_credit_score db today c) rate) as [a r].
    destruct (if a then calculate_monthly_installment amount r n
              else Return (Fin 0)) as [x|err] eqn:E; simpl; [|discriminate].
    intro H. injection H as <-. right. simpl.
    repeat split. exists x. split; [exact E|reflexivity].
Qed.

Lemma max_cases (a b : Q) : Py.max a b = a \/ (Py.max a b = b /\ a < b).
Proof.
  unfold Py.max. destruct (Qltb a b) eqn:E; [right|left; reflexivity].
  split; [reflexivity|apply Qltb_lt, E].
Qed.

Lemma tier_cases (s : Z) (rate : Q) :
  (tier s rate = (true, rate) /\ (50 < s)%Z)
  \/ (tier s rate = (true, Py.max rate 12) /\ (30 < s <= 50)%Z)
  \/ (tier s rate = (true, Py.max rate 16) /\ (10 < s <= 30)%Z)
  \/ (tier s rate = (false, rate) /\ (s <= 10)%Z).
Proof.
  unfold tier.
  destruct (50 <? s)%Z eqn:E1; [left; split; [reflexivity|lia]|].
  destruct (30 <? s)%Z eqn:E2; destruct (s <=? 50)%Z eqn:E3; simpl;
    try (right; left; split; [reflexivity|lia]);
    destruct (10 <? s)%Z eqn:E4; destruct (s <=? 30)%Z eqn:E5; simpl;
    try (right; right; left; split; [reflexivity|lia]);
    right; right; right; split; try reflexivity; lia.
Qed.

(** X1.  The corrected rate is never below the requested rate: it is the
    requested rate itself or one of the floors 12 and 16, and a request at
    16 percent or more always keeps its rate. *)
Theorem corrected_rate_never_reduced :
  forall (db : list Loan) (today : date) (c : Customer)
         (amount rate : Q) (n : Z) (e : Eligibility),
    get_eligibility_status db today c amount rate n = Return e ->
    rate <= corrected_interest_rate e
    /\ (corrected_interest_rate e = rate
        \/ (corrected_interest_rate e = 12 /\ rate < 12)
        \/ (corrected_interest_rate e = 16 /\ rate < 16))
    /\ (16 <= rate -> corrected_interest_rate e = rate).
Proof.
  intros db today c amount rate n e H.
  assert (Hc : corrected_interest_rate e = rate
               \/ (corrected_interest_rate e = 12 /\ rate < 12)
               \/ (corrected_interest_rate e = 16 /\ rate < 16)).
  { destruct (eligibility_cases _ _ _ _ _ _ _ H) as [[_ ->]|[_ [_ [-> _]]]];
      [left; reflexivity|].
    destruct (tier_cases (calculate_credit_score db today c) rate)
      as [[-> _]|[[-> _]|[[-> _]|[-> _]]]]; simpl;
      try (left; reflexivity).
    - destruct (max_cases rate 12) as [->|[-> Hlt]]; [left; reflexivity|].
      right; left; split; [reflexivity|exact Hlt].
    - destruct (max_cases rate 16) as [->|[-> Hlt]]; [left; reflexivity|].
      right; right; split; [reflexivity|exact Hlt]. }
  split; [|split; [exact Hc|]].
  - destruct Hc as [->|[[-> Hlt]|[-> Hlt]]];
      [apply Qle_refl|apply Qlt_le_weak, Hlt|apply Qlt_le_weak, Hlt].
  - intro H16. destruct Hc as [->|[[_ Hlt]|[_ Hlt]]]; [reflexivity| |];
      exfalso; lra.
Qed.

(** X2.  An approval is only ever given to a customer whose active
    installments are within half the salary, whose active principal is
    within the approved limit, and whose score is above 10. *)
Theorem approval_implies_guards :
  forall (db : list Loan) (today : date) (c : Customer)
         (amount rate : Q) (n : Z) (e : Eligibility),
    get_eligibility_status db today c amount rate n = Return e ->
    approval e = true ->
    over_burdened db today c = false
    /\ within_limit db today c
    /\ (10 < calculate_credit_score db today c)%Z.
Proof.
  intros db today c amount rate n e H Ha.
  destruct (eligibility_cases _ _ _ _ _ _ _ H) as [[_ ->]|[Hg [Hap _]]];
    [discriminate Ha|].
  rewrite Ha in Hap.
  assert (Hs : (10 < calculate_credit_score db today c)%Z).
  { destruct (tier_cases (calculate_credit_score db today c) rate)
      as [[E ?]|[[E ?]|[[E ?]|[E ?]]]]; rewrite E in Hap; simpl in Hap;
      try lia; discriminate. }
  split; [exact Hg|]. split; [|exact Hs].
  unfold within_limit. unfold calculate_credit_score, current_loan_sum in Hs.
  destruct (Qltb _ _) eqn:E in Hs; [lia|].
  apply Qltb_ge in E. exact E.
Qed.

(** X3.  A rejection never alters the rate and never quotes an
    installment. *)
Theorem rejection_keeps_rate :
  forall (db : list Loan) (today : date) (c : Customer)
         (amount rate : Q) (n : Z) (e : Eligibility),
    get_eligibility_status db today c amount rate n = Return e ->
    approval e = false ->
    corrected_interest_rate e = rate
    /\ feq (monthly_installment e) (Fin 0).
Proof.
  intros db today c amount rate n e H Ha.
  destruct (eligibility_cases _ _ _ _ _ _ _ H)
    as [[_ ->]|[_ [Hap [Hr [x [Hx Hm]]]]]]; [split; reflexivity|].
  rewrite Ha in Hap, Hx. injection Hx as <-.
  split; [|rewrite Hm; reflexivity].
  rewrite Hr.
  destruct (tier_cases (calculate_credit_score db today c) rate)
    as [[E ?]|[[E ?]|[[E ?]|[E ?]]]]; rewrite E in Hap |- *; simpl in *;
    try discriminate; reflexivity.
Qed.

(** X4.  The decision does not look at the requested amount or tenure:
    two evaluations for the same customer and requested rate agree on
    approval and corrected rate. *)
Theorem decision_ignores_amount_and_tenure :
  forall (db : list Loan) (today : date) (c : Customer)
         (amount amount' rate : Q) (n n' : Z) (e e' : Eligibility),
    get_eligibility_status db today c amount rate n = Return e ->
    get_eligibility_status db today c amount' rate n' = Return e' ->
    approval e = approval e'
    /\ corrected_interest_rate e = corrected_interest_rate e'.
Proof.
  intros db today c amount amount' rate n n' e e' H H'.
  destruct (eligibility_cases _ _ _ _ _ _ _ H) as [[Hg ->]|[Hg [Ha [Hr _]]]];
    destruct (eligibility_cases _ _ _ _ _ _ _ H')
      as [[Hg' ->]|[Hg' [Ha' [Hr' _]]]];
    split; simpl; congruence.
Qed.

(** X5.  A customer's score and eligibility depend on the store only
    through that customer's own loans. *)
Theorem score_depends_on_own_loans :
  forall (db db' : list Loan) (today : date) (c : Customer)
         (amount rate : Q) (n : Z),
    loans_of db c = loans_of db' c ->
    calculate_credit_score db today c = calculate_credit_score db' today c
    /\ get_eligibility_status db today c amount rate n
       = get_eligibility_status db' today c amount rate n.
Proof.
  intros db db' today c amount rate n H.
  assert (Hs : calculate_credit_score db today c
               = calculate_credit_score db' today c).
  { unfold calculate_credit_score. now rewrite H. }
  split; [exact Hs|].
  unfold get_eligibility_status, over_burdened.
  rewrite !current_emis_active, H, Hs. reflexivity.
Qed.

(** X22.  A 200 answer of [check_eligibility] echoes the customer key,
    rate and tenure of the request; its corrected rate is null with
    installment 0 when the request is rejected, and a rate not below the
    requested one when it is approved. *)
Theorem check_eligibility_answer :
  forall (st : Store) (today : date) (req : LoanRequestSchema.t)
         (r : Response),
    check_eligibility st today req = Return r ->
    status r = HTTP_200_OK ->
    exists (a : bool) (corrected : option Q) (m : pyfloat),
      data r
      = EligibilityResult (LoanRequestSchema.customer_id req) a
          (LoanRequestSchema.interest_rate req) corrected
          (LoanRequestSchema.tenure req) m
      /\ (a = false -> corrected = None /\ feq m (Fin 0))
      /\ (a = true ->
          exists q, corrected = Some q
                    /\ LoanRequestSchema.interest_rate req <= q).
Proof.
  intros st today req r. unfold check_eligibility.
  unfold LoanRequestSchema.validate.
  destruct (Qltb 0 _ && Qle_bool 0 _ && (0 <? _)%Z).
  2:{ intros H H200. injection H as <-. discriminate H200. }
  destruct (get_customer _ _) as [c|].
  2:{ intros H H200. injection H as <-. discriminate H200. }
  destruct (get_eligibility_status _ _ _ _ _ _) as [e|err] eqn:He; simpl;
    [|discriminate].
  intros H _. injection H as <-. cbn [data].
  exists (approval e),
    (if approval e then Some (corrected_interest_rate e) else None),
    (monthly_installment e).
  split; [reflexivity|].
  destruct (eligibility_cases _ _ _ _ _ _ _ He)
    as [[_ ->]|[_ [Hap [Hr [x [Hx Hm]]]]]]; simpl.
  - split; [intros _; split; reflexivity|discriminate].
  - split.
    + intro Ha. rewrite Ha in Hx |- *. injection Hx as <-.
      split; [reflexivity|rewrite Hm; reflexivity].
    + intro Ha. rewrite Ha. eexists. split; [reflexivity|].
      rewrite Hr.
      destruct (tier_cases (calculate_credit_score (loans st) today c)
                  (LoanRequestSchema.interest_rate req))
        as [[-> _]|[[-> _]|[[-> _]|[-> _]]]]; simpl;
        try apply Qle_refl; apply max_ge_l.
Qed.

End EligibilityDecision.

(** ** The installment amortizes the loan *)

Section AmortizationSchedule.
Local Open Scope Q_scope.

Lemma Qpower_succ (b : Q) (k : nat) :
  b ^ Z.of_nat (S k) == b ^ Z.of_nat k * b.
Proof.
  rewrite Nat2Z.inj_succ. unfold Z.succ.
  rewrite Qpower_plus' by lia. rewrite Qpower_1_r. reflexivity.
Qed.

(** Without interest the balance falls by one payment a month. *)
Lemma balance_straight_line (p r q : Q) (k : nat) :
  r == 0 -> balance p r q k == p - inject_Z (Z.of_nat k) * q.
Proof.
  intro Hr. induction k as [|k IH].
  - simpl. ring.
  - cbn [balance]. rewrite IH, Hr, Nat2Z.inj_succ. unfold Z.succ.
    rewrite inject_Z_plus. change (inject_Z 1) with 1. ring.
Qed.

(** With interest, in closed form (multiplied through by the rate). *)
Lemma balance_closed_form (p r q : Q) (k : nat) :
  balance p r q k * r
  == p * r * (1 + r) ^ Z.of_nat k - q * ((1 + r) ^ Z.of_nat k - 1).
Proof.
  induction k as [|k IH].
  - simpl. ring.
  - cbn [balance]. rewrite Qpower_succ.
    set (g := (1 + r) ^ Z.of_nat k) in *.
    transitivity ((balance p r q k * r) * (1 + r) - q * r); [ring|].
    rewrite IH. ring.
Qed.

(** X6.  The installment is the payment that clears the loan: paying it
    every month for the whole tenure, with interest accruing monthly at
    (annual rate / 100) / 12, leaves a balance of exactly zero. *)
Theorem installment_clears_balance :
  forall (amount rate q : Q) (n : Z),
    (1 <= n)%Z ->
    calculate_monthly_installment amount rate n = Return (Fin q) ->
    balance amount (rate / 100 / 12) q (Z.to_nat n) == 0.
Proof.
  intros amount rate q n Hn Hq.
  assert (Hn0 : n <> 0%Z) by lia.
  assert (Hk : Z.of_nat (Z.to_nat n) = n) by (apply Z2Nat.id; lia).
  destruct (Qeq_dec (rate / 100 / 12) 0) as [E|E].
  - rewrite (installment_straight_line amount rate n Hn0 E) in Hq.
    injection Hq as <-.
    rewrite (balance_straight_line _ _ _ _ E), Hk.
    assert (~ inject_Z n == 0).
    { intro H0. unfold Qeq in H0. simpl in H0. lia. }
    field. assumption.
  - rewrite (installment_reducing_balance amount rate n Hn0 E) in Hq
      by (left; lia).
    set (r := rate / 100 / 12) in *. set (g := (1 + r) ^ n) in *.
    destruct (Qeq_bool (g - 1) 0) eqn:Eg; [discriminate Hq|].
    apply Qeq_bool_neq in Eg. injection Hq as <-.
    pose proof (balance_closed_form amount r
                  (amount * r * g / (g - 1)) (Z.to_nat n)) as Hc.
    rewrite Hk in Hc. fold g in Hc.
    assert (Hz : balance amount r (amount * r * g / (g - 1)) (Z.to_nat n) * r
                 == 0).
    { rewrite Hc. field. exact Eg. }
    apply Qmult_integral in Hz. destruct Hz as [Hz|Hz]; [exact Hz|contradiction].
Qed.

Lemma compound_growth_bound (r : Q) (k : nat) :
  0 <= r ->
  1 <= (1 + r) ^ Z.of_nat k
  /\ (1 + r) ^ Z.of_nat k - 1
     <= inject_Z (Z.of_nat k) * r * (1 + r) ^ Z.of_nat k.
Proof.
  intro Hr. induction k as [|k [IH1 IH2]].
  - simpl. change (inject_Z 0) with 0. split; lra.
  - rewrite Qpower_succ, Nat2Z.inj_succ. unfold Z.succ.
    rewrite inject_Z_plus. change (inject_Z 1) with 1.
    set (g := (1 + r) ^ Z.of_nat k) in *.
    set (m := inject_Z (Z.of_nat k)) in *.
    assert (Hm : 0 <= m).
    { unfold m. change 0 with (inject_Z 0). rewrite <- Zle_Qle. lia. }
    split; [nra|].
    assert (0 <= r * g) by nra.
    assert (0 <= m * r * g) by nra.
    nra.
Qed.

(** X7.  In exact arithmetic, for loan_amount > 0, rate >= 0 and
    tenure >= 1, the value of the installment formula is more than the
    first month's interest, and tenure times that value is at least the
    principal. *)
Theorem installment_covers_interest_and_principal :
  forall (amount rate q : Q) (n : Z),
    0 < amount -> 0 <= rate -> (1 <= n)%Z ->
    calculate_monthly_installment amount rate n = Return (Fin q) ->
    amount * (rate / 100 / 12) < q
    /\ amount <= q * inject_Z n.
Proof.
  intros amount rate q n Ha Hr Hn Hq.
  pose proof (monthly_rate_nonneg rate Hr) as Hr0.
  assert (Hn0 : n <> 0%Z) by lia.
  assert (Hnq : 0 < inject_Z n) by (apply inject_Z_pos; lia).
  destruct (Qeq_dec (rate / 100 / 12) 0) as [E|E].
  - rewrite (installment_straight_line amount rate n Hn0 E) in Hq.
    injection Hq as <-. rewrite E. split.
    + assert (0 < amount / inject_Z n)
        by (apply Qlt_shift_div_l; [exact Hnq|lra]).
      lra.
    + assert (amount / inject_Z n * inject_Z n == amount) as ->
        by (field; intro H0; rewrite H0 in Hnq; discriminate Hnq).
      apply Qle_refl.
  - rewrite (installment_reducing_balance amount rate n Hn0 E) in Hq
      by (left; lia).
    set (r := rate / 100 / 12) in *.
    assert (Hrpos : 0 < r).
    { apply Qnot_le_lt. intro Hle. apply E. apply Qle_antisym; assumption. }
    destruct (compound_growth_bound r (Z.to_nat n) Hr0) as [_ Hb].
    rewrite Z2Nat.id in Hb by lia.
    assert (Hg : 1 < (1 + r) ^ n) by (apply Qpower_1_lt; [lra|lia]).
    set (g := (1 + r) ^ n) in *.
    destruct (Qeq_bool (g - 1) 0) eqn:Eg; [discriminate Hq|].
    injection Hq as <-.
    assert (Har : 0 < amount * r) by (apply Qmult_lt_0_compat; assumption).
    split.
    + apply Qlt_shift_div_l; [lra|]. nra.
    + assert (amount * r * g / (g - 1) * inject_Z n
              == amount * (inject_Z n * r * g) / (g - 1)) as ->
        by (field; lra).
      apply Qle_shift_div_l; [lra|]. nra.
Qed.

End AmortizationSchedule.

(** ** Further properties of the request handlers *)

Lemma loan_request_valid (req v : LoanRequestSchema.t) :
  LoanRequestSchema.validate req = Some v ->
  v = req
  /\ (0 < LoanRequestSchema.loan_amount req)%Q
  /\ (0 <= LoanRequestSchema.interest_rate req)%Q
  /\ 1 <= LoanRequestSchema.tenure req.
Proof.
  unfold LoanRequestSchema.validate.
  destruct (Qltb 0 _) eqn:E1; simpl; [|discriminate].
  destruct (Qle_bool 0 _) eqn:E2; simpl; [|discriminate].
  destruct (0 <? _) eqn:E3; [|discriminate].
  intro H. injection H as <-.
  apply Qltb_lt in E1. apply Qle_bool_iff in E2. apply Z.ltb_lt in E3.
  repeat split; try assumption. lia.
Qed.

Lemma get_customer_some (cs : list Customer) (id : Z) (c : Customer) :
  get_customer cs id = Some c -> In c cs /\ customer_id c = id.
Proof.
  unfold get_customer. intro H. apply find_some in H.
  destruct H as [Hin Heq]. apply Z.eqb_eq in Heq. split; assumption.
Qed.

(** A request that satisfies the schema never makes the evaluation
    raise. *)
Lemma eligibility_returns (db : list Loan) (today : date) (c : Customer)
      (amount rate : Q) (n : Z) :
  (0 < amount)%Q -> (0 <= rate)%Q -> 1 <= n ->
  exists e, get_eligibility_status db today c amount rate n = Return e.
Proof.
  intros Ha Hr Hn. unfold get_eligibility_status.
  destruct (over_burdened db today c); [eexists; reflexivity|].
  pose proof (tier_rate_nonneg (calculate_credit_score db today c) rate Hr) as Hc.
  destruct (tier (calculate_credit_score db today c) rate) as [a r].
  simpl in Hc. destruct a.
  - destruct (installment_positive amount r n Ha Hc Hn) as [q [Hq _]].
    rewrite Hq. eexists. reflexivity.
  - eexists. reflexivity.
Qed.

Section MoreHandlerProperties.

Variable CustomerSerializer_is_valid : Customer -> bool.
Variable LoanSerializer_is_valid : Loan -> bool.
Variable next_customer_id : list Customer -> Z.
Variable next_loan_id : list Loan -> Z.

(** X9.  A create-loan request answered 201 stores exactly the loan the
    evaluation priced: for the customer found under the requested id, with
    the requested amount and tenure, the corrected rate and rounded
    installment of the evaluation, no installments paid, starting today
    and ending tenure calendar months later; the response carries the new
    loan's key and the same installment. *)
Theorem created_loan_record :
  forall (st st' : Store) (today : date) (req : LoanRequestSchema.t)
         (r : Response),
    create_loan LoanSerializer_is_valid next_loan_id st today req
    = Return (r, st') ->
    status r = HTTP_201_CREATED ->
    exists c e,
      get_customer (customers st) (LoanRequestSchema.customer_id req) = Some c
      /\ get_eligibility_status (loans st) today c
           (LoanRequestSchema.loan_amount req)
           (LoanRequestSchema.interest_rate req)
           (LoanRequestSchema.tenure req) = Return e
      /\ approval e = true
      /\ st' = mkStore (customers st)
                 (loans st
                  ++ [mkLoan (next_loan_id (loans st))
                        (LoanRequestSchema.customer_id req)
                        (LoanRequestSchema.loan_amount req)
                        (LoanRequestSchema.tenure req)
                        (corrected_interest_rate e) (monthly_installment e)
                        0 today
                        (RelativeDelta.add_months today
                           (LoanRequestSchema.tenure req))])
      /\ data r
         = LoanResult (Some (next_loan_id (loans st)))
             (LoanRequestSchema.customer_id req) true
             "Loan approved successfully!" (monthly_installment e).
Proof.
  intros st st' today req r. unfold create_loan.
  destruct (LoanRequestSchema.validate req) as [v|] eqn:Hv.
  2:{ intros H H201. injection H as <- <-. discriminate H201. }
  destruct (loan_request_valid req v Hv) as [-> _].
  destruct (get_customer _ _) as [c|] eqn:Hc.
  2:{ intros H H201. injection H as <- <-. discriminate H201. }
  destruct (get_customer_some _ _ _ Hc) as [_ Hid].
  destruct (get_eligibility_status _ _ _ _ _ _) as [e|err] eqn:He; simpl;
    [|discriminate].
  destruct (approval e) eqn:Ha; simpl.
  2:{ intros H H201. injection H as <- <-. discriminate H201. }
  destruct (LoanSerializer_is_valid _).
  2:{ intros H H201. injection H as <- <-. discriminate H201. }
  intros H _. injection H as <- <-.
  exists c, e. rewrite Hid. repeat split; try assumption; reflexivity.
Qed.

(** X10.  No request makes [create_loan] or [check_eligibility] divide
    by zero: the schema keeps the tenure positive and the rate
    non-negative, so that the power of the amortization formula has a base
    of at least 1, and every other division is guarded.  Whenever they
    return, [create_loan] answers 200, 201, 400 or 404 and
    [check_eligibility] answers 200, 400 or 404. *)
Theorem handlers_never_divide_by_zero :
  forall (st : Store) (today : date) (req : LoanRequestSchema.t),
    create_loan LoanSerializer_is_valid next_loan_id st today req
    <> Raise ZeroDivisionError
    /\ check_eligibility st today req <> Raise ZeroDivisionError
    /\ (forall r st',
           create_loan LoanSerializer_is_valid next_loan_id st today req
           = Return (r, st') ->
           In (status r) [200; 201; 400; 404])
    /\ (forall r,
           check_eligibility st today req = Return r ->
           In (status r) [200; 400; 404]).
Proof.
  intros st today req. unfold create_loan, check_eligibility.
  destruct (LoanRequestSchema.validate req) as [v|] eqn:Hv.
  2:{ repeat split; try discriminate.
      - intros r st' H. injection H as <- <-. simpl. auto.
      - intros r H. injection H as <-. simpl. auto. }
  destruct (loan_request_valid req v Hv) as [-> [Ha [Hr Hn]]].
  destruct (get_customer _ _) as [c|].
  2:{ repeat split; try discriminate.
      - intros r st' H. injection H as <- <-. simpl. auto.
      - intros r H. injection H as <-. simpl. auto 6. }
  destruct (eligibility_returns (loans st) today c _ _ _ Ha Hr Hn) as [e He].
  rewrite He. simpl.
  repeat split; try discriminate.
  - destruct (approval e); simpl; [destruct (LoanSerializer_is_valid _)|];
      discriminate.
  - destruct (approval e); simpl; [destruct (LoanSerializer_is_valid _)|];
      intros r st' H; injection H as <- <-; simpl; auto.
  - intros r H. injection H as <-. simpl. auto.
Qed.

(** X11.  What [check_eligibility] quotes is what [create_loan] does on
    the same store and day: a quoted rejection is answered by the 200
    rejection with the store untouched, and after a quoted approval every
    201 stores a loan at the quoted corrected rate and installment. *)
Theorem quote_matches_issuance :
  forall (st : Store) (today : date) (req : LoanRequestSchema.t)
         (id : Z) (a : bool) (rate : Q) (corrected : option Q) (n : Z)
         (m : pyfloat),
    check_eligibility st today req
    = Return (mkResponse (EligibilityResult id a rate corrected n m)
                HTTP_200_OK) ->
    (a = false ->
     create_loan LoanSerializer_is_valid next_loan_id st today req
     = Return
         (mkResponse
            (LoanResult None id false
               "Loan not approved based on eligibility check." (Fin 0))
            HTTP_200_OK,
          st))
    /\ (a = true ->
        forall r st',
          create_loan LoanSerializer_is_valid next_loan_id st today req
          = Return (r, st') ->
          status r = HTTP_201_CREATED ->
          exists l,
            loans st' = loans st ++ [l]
            /\ Some (interest_rate l) = corrected
            /\ monthly_repayment l = m
            /\ data r
               = LoanResult (Some (loan_id l)) id true
                   "Loan approved successfully!" m).
Proof.
  intros st today req id a rate corrected n m.
  unfold check_eligibility, create_loan.
  destruct (LoanRequestSchema.validate req) as [v|] eqn:Hv; [|discriminate].
  destruct (get_customer _ _) as [c|]; [|discriminate].
  destruct (get_eligibility_status _ _ _ _ _ _) as [e|err]; simpl;
    [|discriminate].
  intro H. injection H as <- <- <- <- <- <-.
  split.
  - intros ->. reflexivity.
  - intros -> r st'. simpl.
    destruct (LoanSerializer_is_valid _).
    + intros H _. injection H as <- <-.
      eexists. simpl. repeat split.
    + intros H H201. injection H as <- <-. discriminate H201.
Qed.

Lemma existsb_app_l {A : Type} (f : A -> bool) (xs ys : list A) :
  existsb f xs = true -> existsb f (xs ++ ys) = true.
Proof. intro H. rewrite existsb_app, H. reflexivity. Qed.

(** X12.  If every loan of the store is owned by a customer of the
    store, this still holds after any [create_loan] and any
    [register_customer]. *)
Theorem handlers_keep_owners :
  forall (st : Store),
    loans_have_owners st = true ->
    (forall today req r st',
        create_loan LoanSerializer_is_valid next_loan_id st today req
        = Return (r, st') ->
        loans_have_owners st' = true)
    /\ (forall req r st',
           register_customer CustomerSerializer_is_valid next_customer_id
             st req = (r, st') ->
           loans_have_owners st' = true).
Proof.
  intros st Hinv. split.
  - intros today req r st'. unfold create_loan.
    destruct (LoanRequestSchema.validate req) as [v|];
      [|intro H; injection H as <- <-; exact Hinv].
    destruct (get_customer _ _) as [c|] eqn:Hc;
      [|intro H; injection H as <- <-; exact Hinv].
    destruct (get_customer_some _ _ _ Hc) as [Hin Hid].
    destruct (get_eligibility_status _ _ _ _ _ _) as [e|err]; simpl;
      [|discriminate].
    destruct (approval e); simpl;
      [|intro H; injection H as <- <-; exact Hinv].
    destruct (LoanSerializer_is_valid _);
      [|intro H; injection H as <- <-; exact Hinv].
    intro H. injection H as <- <-.
    unfold loans_have_owners in *. simpl.
    rewrite forallb_app, Hinv. simpl. rewrite andb_true_r.
    apply existsb_exists. exists c. split; [exact Hin|].
    apply Z.eqb_eq. reflexivity.
  - intros req r st'. unfold register_customer.
    destruct req as [|fields]; [intro H; injection H as <- <-; exact Hinv|].
    destruct (RegisterCustomerSchema.validate fields) as [v|];
      [|intro H; injection H as <- <-; exact Hinv].
    destruct (CustomerSerializer_is_valid _);
      [|intro H; injection H as <- <-; exact Hinv].
    intro H. injection H as <- <-.
    unfold loans_have_owners in *. simpl.
    rewrite forallb_forall in *. intros l Hl.
    apply existsb_app_l. apply Hinv, Hl.
Qed.

End MoreHandlerProperties.

(** ** Registration and the first loan *)

Section ApprovedLimit.
Local Open Scope Q_scope.

Lemma round_mono (x y : Q) : x <= y -> (Py.round x <= Py.round y)%Z.
Proof.
  intro H.
  pose proof (Qfloor_resp_le x y H) as Hf.
  pose proof (round_bounds x) as Hx. pose proof (round_bounds y) as Hy.
  destruct (Z.eq_dec (Qfloor x) (Qfloor y)) as [E|NE]; [|lia].
  unfold Py.round. rewrite <- E.
  destruct (Qcompare_spec (x - inject_Z (Qfloor x)) (1 # 2)) as [Hx1|Hx1|Hx1];
    destruct (Qcompare_spec (y - inject_Z (Qfloor x)) (1 # 2)) as [Hy1|Hy1|Hy1];
    try lia; try (exfalso; lra);
    destruct (Z.even (Qfloor x)); lia.
Qed.

Lemma approved_limit_nonneg (income : Q) :
  0 <= income -> (0 <= compute_approved_limit income)%Z.
Proof.
  intro H0. unfold compute_approved_limit.
  apply Z.mul_nonneg_nonneg; [|lia].
  apply round_ge. change (inject_Z 0) with 0.
  unfold Qdiv. apply Qmult_le_0_compat; [lra|discriminate].
Qed.

(** X13.  The approved limit never decreases when the income grows, and
    it is never negative for a non-negative income. *)
Theorem approved_limit_monotone :
  forall income income' : Q,
    income <= income' ->
    (compute_approved_limit income <= compute_approved_limit income')%Z
    /\ (0 <= income -> (0 <= compute_approved_limit income)%Z).
Proof.
  intros income income' H. split; [|apply approved_limit_nonneg].
  unfold compute_approved_limit.
  apply Z.mul_le_mono_nonneg_r; [lia|].
  apply round_mono.
  unfold Qdiv. apply Qmult_le_compat_r; [lra|discriminate].
Qed.

End ApprovedLimit.

Lemma score_without_loans (db : list Loan) (today : date) (c : Customer) :
  0 <= approved_limit c -> loans_of db c = [] ->
  calculate_credit_score db today c = 25.
Proof.
  intros Hlim Hnone. unfold calculate_credit_score. rewrite Hnone.
  unfold current_loan_sum. simpl.
  assert (E : Qltb (inject_Z (approved_limit c)) 0 = false).
  { apply Qltb_ge. change 0%Q with (inject_Z 0). now rewrite <- Zle_Qle. }
  rewrite E. apply round_25, raw_score_no_loans.
Qed.

Lemma get_customer_appended (cs : list Customer) (c : Customer) :
  (forall c', In c' cs -> customer_id c' <> customer_id c) ->
  get_customer (cs ++ [c]) (customer_id c) = Some c.
Proof.
  intro Hfresh. unfold get_customer.
  induction cs as [|c' cs IH]; simpl.
  - now rewrite Z.eqb_refl.
  - destruct (customer_id c' =? customer_id c) eqn:E.
    + apply Z.eqb_eq in E. exfalso. apply (Hfresh c'); [left; reflexivity|exact E].
    + apply IH. intros c'' Hin. apply Hfresh. right. exact Hin.
Qed.

Lemma loans_of_none (db : list Loan) (c : Customer) :
  (forall l, In l db -> customer l <> customer_id c) -> loans_of db c = [].
Proof.
  intro H. unfold loans_of. induction db as [|l db IH]; simpl; [reflexivity|].
  destruct (customer l =? customer_id c) eqn:E.
  - apply Z.eqb_eq in E. exfalso. apply (H l); [left; reflexivity|exact E].
  - apply IH. intros l' Hin. apply H. right. exact Hin.
Qed.

Section FirstLoan.

Variable CustomerSerializer_is_valid : Customer -> bool.
Variable next_customer_id : list Customer -> Z.

(** X14.  A customer who has just been registered is eligible at once.
    If the key the store allots is not in use (by a customer or as the
    owner of a loan), the new customer scores the baseline 25, and every
    answer [check_eligibility] returns to a schema-valid request of that
    customer is a 200 with approval true and corrected rate
    max(requested rate, 16.0). *)
Theorem registered_customer_is_eligible :
  forall (st st' : Store) (fields : RegisterCustomerSchema.t) (r : Response)
         (today : date) (amount rate : Q) (n : Z),
    register_customer CustomerSerializer_is_valid next_customer_id st
      (Dict fields) = (r, st') ->
    status r = HTTP_201_CREATED ->
    (forall c, In c (customers st) ->
               customer_id c <> next_customer_id (customers st)) ->
    (forall l, In l (loans st) ->
               customer l <> next_customer_id (customers st)) ->
    (0 < amount)%Q -> (0 <= rate)%Q -> 1 <= n ->
    exists c,
      get_customer (customers st') (next_customer_id (customers st)) = Some c
      /\ calculate_credit_score (loans st') today c = 25
      /\ forall answer,
           check_eligibility st' today
             (LoanRequestSchema.mk (next_customer_id (customers st))
                amount rate n)
           = Return answer ->
           exists installment,
             answer
             = mkResponse
                 (EligibilityResult (next_customer_id (customers st)) true
                    rate (Some (Py.max rate 16)) n installment)
                 HTTP_200_OK.
Proof.
  intros st st' fields r today amount rate n Hreg H201 Hfc Hfl Ha Hr Hn.
  unfold register_customer in Hreg.
  destruct (RegisterCustomerSchema.validate fields) as [v|] eqn:Hv.
  2:{ injection Hreg as <- <-. discriminate H201. }
  unfold RegisterCustomerSchema.validate in Hv.
  destruct ((0 <? RegisterCustomerSchema.age fields)
            && Qltb 0 (RegisterCustomerSchema.monthly_income fields)) eqn:Hok;
    [|discriminate Hv].
  injection Hv as <-.
  apply andb_true_iff in Hok. destruct Hok as [_ Hinc]. apply Qltb_lt in Hinc.
  destruct (CustomerSerializer_is_valid _).
  2:{ injection Hreg as <- <-. discriminate H201. }
  injection Hreg as <- <-. cbn [customers loans].
  set (id := next_customer_id (customers st)) in *.
  set (c := mkCustomer id _ _ _ _ _ _).
  assert (Hget : get_customer (customers st ++ [c]) id = Some c).
  { apply (get_customer_appended (customers st) c). exact Hfc. }
  assert (Hnone : loans_of (loans st) c = []).
  { apply loans_of_none. exact Hfl. }
  assert (Hlim : 0 <= approved_limit c).
  { apply approved_limit_nonneg, Qlt_le_weak, Hinc. }
  assert (Hs : calculate_credit_score (loans st) today c = 25).
  { apply score_without_loans; assumption. }
  assert (Hg : over_burdened (loans st) today c = false).
  { unfold over_burdened. rewrite current_emis_active, Hnone. simpl.
    apply Qltb_ge. simpl in Hinc |- *. lra. }
  destruct (tier_defined amount rate 16 n) as [x Hx]; [reflexivity|].
  exists c. split; [exact Hget|]. split; [exact Hs|].
  intro answer. unfold check_eligibility.
  assert (Hval : LoanRequestSchema.validate (LoanRequestSchema.mk id amount rate n)
                 = Some (LoanRequestSchema.mk id amount rate n)).
  { unfold LoanRequestSchema.validate. simpl.
    apply Qltb_lt in Ha. apply Qle_bool_iff in Hr.
    assert (E : (0 <? n) = true) by (apply Z.ltb_lt; lia).
    now rewrite Ha, Hr, E. }
  rewrite Hval. cbn [LoanRequestSchema.customer_id LoanRequestSchema.loan_amount
                     LoanRequestSchema.interest_rate LoanRequestSchema.tenure
                     customers loans].
  rewrite Hget.
  unfold get_eligibility_status. rewrite Hg, Hs. simpl. rewrite Hx. simpl.
  intro H. injection H as <-. eexists. reflexivity.
Qed.

End FirstLoan.

(** ** End dates and remaining repayments *)

Section EndDates.
Import RelativeDelta.

Lemma add_months_set_months (d : date) (n : Z) :
  add_months d n = radd (set_months n) d.
Proof.
  unfold add_months, fix_. cbn [seconds minutes hours days months years].
  rewrite !(carry_small _ _ 0 0) by lia.
  unfold carry, set_months.
  destruct (11 <? Z.abs n); reflexivity.
Qed.

Lemma add_months_shape (d : date) (n : Z) :
  valid_date d -> 0 <= n ->
  valid_date (add_months d n)
  /\ month_index (add_months d n) = month_index d + n
  /\ day (add_months d n)
     = Z.min (days_in_month (year (add_months d n)) (month (add_months d n)))
         (day d).
Proof.
  intros [Hy [Hm Hd]] Hn. rewrite add_months_set_months.
  pose proof (set_months_nonneg n Hn) as [Sy [Sm Se]].
  pose proof (radd_index (set_months n) d Hm Sm) as [Ri [Rm Rd]].
  pose proof (days_in_month_pos (year (radd (set_months n) d))
                (month (radd (set_months n) d))) as Hdim.
  split; [|split; [lia|exact Rd]].
  unfold valid_date. unfold month_index in Ri. lia.
Qed.

Lemma add_months_not_before (d : date) (n : Z) :
  valid_date d -> 0 <= n -> date_ltb (add_months d n) d = false.
Proof.
  intros V Hn.
  destruct (add_months_shape d n V Hn) as [[_ [Hm' _]] [Hi Hd']].
  pose proof V as [_ [Hm Hd]].
  apply not_true_is_false. intro T.
  apply date_ltb_index in T; [|assumption|assumption].
  destruct T as [T|[T1 T2]]; [lia|].
  assert (n = 0) by lia. subst n.
  rewrite add_months_set_months, (radd_zero d V) in T2.
  lia.
Qed.

(** On the day a loan of [n] months is issued, [n] repayments are left. *)
Lemma repayments_left_add_months (fuel : nat) (today : date) (n : Z) :
  valid_date today -> 0 <= n ->
  get_repayments_left fuel today (add_months today n) = Some n.
Proof.
  intros V Hn.
  pose proof (add_months_not_before today n V Hn) as Hnb.
  destruct (add_months_shape today n V Hn) as [_ [Hi _]].
  unfold get_repayments_left, between. rewrite Hnb.
  replace ((year (add_months today n) - year today) * 12
           + (month (add_months today n) - month today)) with n
    by (unfold month_index in Hi; lia).
  assert (Hadj : adjust fuel (add_months today n) today false n = Some n).
  { destruct fuel; cbn [adjust];
      rewrite <- add_months_set_months, date_ltb_irrefl; reflexivity. }
  rewrite Hadj, <- add_months_set_months, Z.sub_diag.
  pose proof (set_months_nonneg n Hn) as [Sy [Sm Se]].
  rewrite fix_days by lia. cbn [years months days]. simpl.
  f_equal. exact Se.
Qed.

(** X16.  The end date computed at issue and the remaining-repayments
    count are inverse to each other: when the end date of a loan of [n]
    months issued today is still a date (its year is not past
    [MAXYEAR]), the loan shows exactly [n] repayments left on the day of
    issue, whatever iteration budget the month loop is given. *)
Theorem issue_day_shows_full_tenure :
  forall (fuel : nat) (today : date) (n : Z),
    valid_date today -> 0 <= n ->
    year (RelativeDelta.add_months today n) <= MAXYEAR ->
    get_repayments_left fuel today (RelativeDelta.add_months today n) = Some n.
Proof.
  intros fuel today n V Hn _. apply repayments_left_add_months; assumption.
Qed.

(** The count is defined and not negative for valid dates. *)
Lemma repayments_left_defined (fuel : nat) (today end_ : date) :
  valid_date today -> valid_date end_ -> (1 <= fuel)%nat ->
  exists k, get_repayments_left fuel today end_ = Some k /\ 0 <= k.
Proof.
  intros Vt Ve Hfuel. unfold get_repayments_left.
  destruct (date_ltb end_ today) eqn:E; [exists 0; split; [reflexivity|lia]|].
  destruct (between_backward fuel end_ today Ve Vt E Hfuel)
    as [delta [Hb [Hy [Hm _]]]].
  rewrite Hb. destruct (0 <? days delta); eexists; (split; [reflexivity|lia]).
Qed.

(** X15.  For valid dates the count is 0 exactly when the end date is
    today or earlier; a loan that ends after today always shows at least
    one repayment left. *)
Theorem repayments_left_zero_iff_ended :
  forall (fuel : nat) (today end_ : date),
    valid_date today -> valid_date end_ -> (1 <= fuel)%nat ->
    (date_ltb today end_ = false ->
     get_repayments_left fuel today end_ = Some 0)
    /\ (date_ltb today end_ = true ->
        exists k, get_repayments_left fuel today end_ = Some k /\ 1 <= k).
Proof.
  intros fuel today end_ Vt Ve Hfuel. split.
  - intro Hle. unfold get_repayments_left.
    destruct (date_ltb end_ today) eqn:E; [reflexivity|].
    rewrite (date_not_ltb_eq end_ today E Hle).
    pose proof (repayments_left_add_months fuel today 0 Vt (Z.le_refl 0)) as H0.
    rewrite add_months_set_months, (radd_zero today Vt) in H0.
    unfold get_repayments_left in H0. rewrite date_ltb_irrefl in H0. exact H0.
  - intro Hlt. unfold get_repayments_left.
    assert (E : date_ltb end_ today = false).
    { apply not_true_is_false. intro T.
      destruct Vt as [_ [Hmt Hdt]]. destruct Ve as [_ [Hme Hde]].
      pose proof (toordinal_lt _ _ Hmt Hdt Hme Hde Hlt).
      pose proof (toordinal_lt _ _ Hme Hde Hmt Hdt T). lia. }
    rewrite E.
    destruct (between_backward fuel end_ today Ve Vt E Hfuel)
      as [delta [Hb [Hy [Hm [Hd [Hd0 _]]]]]].
    rewrite Hb.
    destruct (0 <? days delta) eqn:Ed;
      [eexists; split; [reflexivity|lia]|].
    apply Z.ltb_ge in Ed.
    eexists; split; [reflexivity|].
    destruct (Z.eq_dec (years delta * 12 + months delta) 0) as [Z0|]; [|lia].
    exfalso.
    assert (years delta = 0 /\ months delta = 0) as [Y0 M0] by lia.
    rewrite Y0, M0 in Hd.
    change (0, 0) with (set_months 0) in Hd.
    rewrite (radd_zero today Vt) in Hd.
    destruct Vt as [_ [Hmt Hdt]]. destruct Ve as [_ [Hme Hde]].
    pose proof (toordinal_lt _ _ Hmt Hdt Hme Hde Hlt). lia.
Qed.

End EndDates.

Section IssuedEndDate.

Variable LoanSerializer_is_valid : Loan -> bool.
Variable next_loan_id : list Loan -> Z.

(** X17.  After a create-loan request is answered 201 on a valid day, with
    the end of the tenure still within the calendar (its year is not past
    [MAXYEAR]), the stored loan starts today and ends on a valid date of
    that calendar exactly tenure calendar months later, on the same day of
    the month or on the last day of a shorter month; its end date is
    strictly after its start date. *)
Theorem issued_loan_end_date :
  forall (st st' : Store) (today : date) (req : LoanRequestSchema.t)
         (r : Response),
    valid_date today ->
    year (RelativeDelta.add_months today (LoanRequestSchema.tenure req))
    <= MAXYEAR ->
    create_loan LoanSerializer_is_valid next_loan_id st today req
    = Return (r, st') ->
    status r = HTTP_201_CREATED ->
    exists l,
      loans st' = loans st ++ [l]
      /\ start_date l = today
      /\ tenure l = LoanRequestSchema.tenure req
      /\ valid_date (end_date l)
      /\ year (end_date l) <= MAXYEAR
      /\ month_index (end_date l) = month_index today + tenure l
      /\ day (end_date l)
         = Z.min (days_in_month (year (end_date l)) (month (end_date l)))
             (day today)
      /\ date_ltb (start_date l) (end_date l) = true.
Proof.
  intros st st' today req r Vt Hmax Hcreate H201.
  unfold create_loan in Hcreate.
  destruct (LoanRequestSchema.validate req) as [v|] eqn:Hv.
  2:{ injection Hcreate as <- <-. discriminate H201. }
  destruct (loan_request_valid req v Hv) as [-> [_ [_ Hn]]].
  destruct (get_customer _ _) as [c|].
  2:{ injection Hcreate as <- <-. discriminate H201. }
  destruct (get_eligibility_status _ _ _ _ _ _) as [e|err]; simpl in Hcreate;
    [|discriminate].
  destruct (approval e); simpl in Hcreate.
  2:{ injection Hcreate as <- <-. discriminate H201. }
  destruct (LoanSerializer_is_valid _).
  2:{ injection Hcreate as <- <-. discriminate H201. }
  injection Hcreate as <- <-. cbn [loans].
  assert (Hn0 : 0 <= LoanRequestSchema.tenure req) by lia.
  destruct (add_months_shape today (LoanRequestSchema.tenure req) Vt Hn0)
    as [Ve [Hi Hd]].
  eexists. split; [reflexivity|]. cbn [start_date tenure end_date].
  repeat split; try assumption; try apply Ve.
  destruct Vt as [_ [Hm _]]. destruct Ve as [_ [Hm' _]].
  apply date_ltb_index; [assumption|assumption|]. left. lia.
Qed.

End IssuedEndDate.

(** ** The read-only views *)

Lemma serialize_loans_app (fuel : nat) (today : date) (xs ys : list Loan)
      (ix iy : list ViewLoansSerializer.t) :
  serialize_loans fuel today xs = Some ix ->
  serialize_loans fuel today ys = Some iy ->
  serialize_loans fuel today (xs ++ ys) = Some (ix ++ iy).
Proof.
  revert ix. induction xs as [|x xs IH]; simpl; intros ix Hx Hy.
  - injection Hx as <-. exact Hy.
  - destruct (serialize_loan fuel today x) as [i|]; [|discriminate].
    destruct (serialize_loans fuel today xs) as [is_|]; [|discriminate].
    injection Hx as <-. rewrite (IH is_ eq_refl Hy). reflexivity.
Qed.

Lemma serialize_loans_defined (fuel : nat) (today : date) (ls : list Loan) :
  valid_date today -> (1 <= fuel)%nat ->
  (forall l, In l ls -> valid_date (end_date l)) ->
  exists items,
    serialize_loans fuel today ls = Some items
    /\ map ViewLoansSerializer.loan_id items = map loan_id ls
    /\ Forall (fun i => 0 <= ViewLoansSerializer.repayments_left i) items.
Proof.
  intros Vt Hfuel. induction ls as [|l ls IH]; intro Hv.
  - exists []. repeat split. constructor.
  - destruct IH as [items [Hs [Hids Hnn]]].
    { intros l' Hin. apply Hv. right. exact Hin. }
    destruct (repayments_left_defined fuel today (end_date l) Vt
                (Hv l (or_introl eq_refl)) Hfuel) as [k [Hk Hk0]].
    simpl. unfold serialize_loan. rewrite Hk, Hs.
    eexists. split; [reflexivity|]. simpl. split; [now rewrite Hids|].
    constructor; [exact Hk0|exact Hnn].
Qed.

(** X18.  [view_customer_loans] answers 404 exactly when no customer has
    the given key.  Otherwise, for valid dates, it answers 200 with one
    entry per loan of that customer, in store order and under the loans'
    keys, each with a repayments-left count that is not negative. *)
Theorem view_customer_loans_lists_own_loans :
  forall (fuel : nat) (st : Store) (today : date) (id : Z),
    valid_date today -> (1 <= fuel)%nat ->
    (forall l, In l (loans st) -> valid_date (end_date l)) ->
    (get_customer (customers st) id = None ->
     view_customer_loans fuel st today id
     = Some (mkViewResponse (ViewError "Customer not found")
               HTTP_404_NOT_FOUND))
    /\ (forall c, get_customer (customers st) id = Some c ->
        exists items,
          view_customer_loans fuel st today id
          = Some (mkViewResponse (LoanList items) HTTP_200_OK)
          /\ map ViewLoansSerializer.loan_id items
             = map loan_id (loans_of (loans st) c)
          /\ Forall (fun i => 0 <= ViewLoansSerializer.repayments_left i)
               items).
Proof.
  intros fuel st today id Vt Hfuel Hv. unfold view_customer_loans. split.
  - intro Hnone.
    assert (E : existsb (fun c => customer_id c =? id) (customers st) = false).
    { apply not_true_is_false. intro T. apply existsb_exists in T.
      destruct T as [c [Hin Hid]].
      unfold get_customer in Hnone.
      exact (eq_true_false_abs _ Hid (find_none _ _ Hnone c Hin)). }
    rewrite E. reflexivity.
  - intros c Hc. destruct (get_customer_some _ _ _ Hc) as [Hin Hid].
    assert (E : existsb (fun c => customer_id c =? id) (customers st) = true).
    { apply existsb_exists. exists c. split; [exact Hin|].
      apply Z.eqb_eq, Hid. }
    rewrite E. simpl.
    destruct (serialize_loans_defined fuel today
                (filter (fun l => customer l =? id) (loans st)) Vt Hfuel)
      as [items [Hs [Hids Hnn]]].
    { intros l Hl. apply filter_In in Hl. apply Hv, Hl. }
    rewrite Hs. exists items. unfold loans_of. rewrite Hid.
    repeat split; assumption.
Qed.

Section ViewsAfterIssue.

Variable LoanSerializer_is_valid : Loan -> bool.
Variable next_loan_id : list Loan -> Z.

(** X19.  After a create-loan request is answered 201, the customer's
    loan list is the list from before followed by the new loan, shown
    under the key of the response with the requested amount and with the
    whole tenure as repayments left. *)
Theorem issued_loan_is_listed :
  forall (fuel : nat) (st st' : Store) (today : date)
         (req : LoanRequestSchema.t) (r : Response)
         (items : list ViewLoansSerializer.t),
    valid_date today ->
    create_loan LoanSerializer_is_valid next_loan_id st today req
    = Return (r, st') ->
    status r = HTTP_201_CREATED ->
    view_customer_loans fuel st today (LoanRequestSchema.customer_id req)
    = Some (mkViewResponse (LoanList items) HTTP_200_OK) ->
    exists rate installment,
      data r
      = LoanResult (Some (next_loan_id (loans st)))
          (LoanRequestSchema.customer_id req) true
          "Loan approved successfully!" installment
      /\ view_customer_loans fuel st' today (LoanRequestSchema.customer_id req)
         = Some
             (mkViewResponse
                (LoanList
                   (items
                    ++ [ViewLoansSerializer.mk (next_loan_id (loans st))
                          (LoanRequestSchema.loan_amount req) rate installment
                          (LoanRequestSchema.tenure req)]))
                HTTP_200_OK).
Proof.
  intros fuel st st' today req r items Vt Hcreate H201 Hview.
  unfold create_loan in Hcreate.
  destruct (LoanRequestSchema.validate req) as [v|] eqn:Hv.
  2:{ injection Hcreate as <- <-. discriminate H201. }
  destruct (loan_request_valid req v Hv) as [-> [_ [_ Hn]]].
  destruct (get_customer _ _) as [c|] eqn:Hc.
  2:{ injection Hcreate as <- <-. discriminate H201. }
  destruct (get_customer_some _ _ _ Hc) as [_ Hid].
  destruct (get_eligibility_status _ _ _ _ _ _) as [e|err]; simpl in Hcreate;
    [|discriminate].
  destruct (approval e); simpl in Hcreate.
  2:{ injection Hcreate as <- <-. discriminate H201. }
  destruct (LoanSerializer_is_valid _).
  2:{ injection Hcreate as <- <-. discriminate H201. }
  injection Hcreate as <- <-.
  exists (corrected_interest_rate e), (monthly_installment e).
  split; [reflexivity|].
  unfold view_customer_loans in *. cbn [customers loans].
  destruct (negb (existsb _ (customers st))); [discriminate Hview|].
  destruct (serialize_loans fuel today
              (filter (fun l => customer l =? LoanRequestSchema.customer_id req)
                 (loans st))) as [items0|] eqn:Hs; [|discriminate Hview].
  injection Hview as ->.
  rewrite filter_app. cbn [filter customer].
  rewrite Hid, Z.eqb_refl.
  erewrite serialize_loans_app; [reflexivity|exact Hs|].
  cbn [serialize_loans]. unfold serialize_loan. cbn [end_date].
  rewrite repayments_left_add_months by (assumption || lia).
  reflexivity.
Qed.

Lemma get_loan_appended (ls : list Loan) (l : Loan) :
  (forall l', In l' ls -> loan_id l' <> loan_id l) ->
  get_loan (ls ++ [l]) (loan_id l) = Some l.
Proof.
  intro Hfresh. unfold get_loan.
  induction ls as [|l' ls IH]; simpl.
  - now rewrite Z.eqb_refl.
  - destruct (loan_id l' =? loan_id l) eqn:E.
    + apply Z.eqb_eq in E. exfalso.
      apply (Hfresh l'); [left; reflexivity|exact E].
    + apply IH. intros l'' Hin. apply Hfresh. right. exact Hin.
Qed.

(** X20.  After a create-loan request is answered 201 with a key that no
    earlier loan has, [view_loan] under that key answers 200 with the
    requested amount and tenure, the installment of the response, and the
    whole record of the customer the loan was requested for. *)
Theorem issued_loan_is_viewable :
  forall (st st' : Store) (today : date) (req : LoanRequestSchema.t)
         (r : Response),
    create_loan LoanSerializer_is_valid next_loan_id st today req
    = Return (r, st') ->
    status r = HTTP_201_CREATED ->
    (forall l, In l (loans st) -> loan_id l <> next_loan_id (loans st)) ->
    exists c rate installment,
      get_customer (customers st) (LoanRequestSchema.customer_id req) = Some c
      /\ data r
         = LoanResult (Some (next_loan_id (loans st)))
             (LoanRequestSchema.customer_id req) true
             "Loan approved successfully!" installment
      /\ view_loan st' (next_loan_id (loans st))
         = mkViewResponse
             (LoanDetail
                (LoanDetailSerializer.mk (next_loan_id (loans st)) c
                   (LoanRequestSchema.loan_amount req) rate installment
                   (LoanRequestSchema.tenure req)))
             HTTP_200_OK.
Proof.
  intros st st' today req r Hcreate H201 Hfresh.
  unfold create_loan in Hcreate.
  destruct (LoanRequestSchema.validate req) as [v|] eqn:Hv.
  2:{ injection Hcreate as <- <-. discriminate H201. }
  destruct (loan_request_valid req v Hv) as [-> _].
  destruct (get_customer _ _) as [c|] eqn:Hc.
  2:{ injection Hcreate as <- <-. discriminate H201. }
  destruct (get_customer_some _ _ _ Hc) as [_ Hid].
  destruct (get_eligibility_status _ _ _ _ _ _) as [e|err]; simpl in Hcreate;
    [|discriminate].
  destruct (approval e); simpl in Hcreate.
  2:{ injection Hcreate as <- <-. discriminate H201. }
  destruct (LoanSerializer_is_valid _).
  2:{ injection Hcreate as <- <-. discriminate H201. }
  injection Hcreate as <- <-.
  exists c, (corrected_interest_rate e), (monthly_installment e).
  split; [reflexivity|]. split; [reflexivity|].
  unfold view_loan. cbn [customers loans].
  set (l := mkLoan (next_loan_id (loans st)) _ _ _ _ _ _ _ _).
  rewrite (get_loan_appended (loans st) l Hfresh : get_loan _ (next_loan_id (loans st)) = Some l).
  cbn [customer l]. rewrite Hid, Hc. reflexivity.
Qed.

End ViewsAfterIssue.

(** X21.  When every loan of the store has an owner in the store,
    [view_loan] answers 404 exactly when no loan has the given key, and
    otherwise 200 with the fields of the first loan under that key and the
    record of its owner. *)
Theorem view_loan_found_iff :
  forall (st : Store) (id : Z),
    loans_have_owners st = true ->
    (get_loan (loans st) id = None ->
     view_loan st id
     = mkViewResponse (ViewError "Loan not found") HTTP_404_NOT_FOUND)
    /\ (forall l, get_loan (loans st) id = Some l ->
        exists c,
          get_customer (customers st) (customer l) = Some c
          /\ customer_id c = customer l
          /\ loan_id l = id
          /\ view_loan st id
             = mkViewResponse
                 (LoanDetail
                    (LoanDetailSerializer.mk id c (loan_amount l)
                       (interest_rate l) (monthly_repayment l) (tenure l)))
                 HTTP_200_OK).
Proof.
  intros st id Hinv. unfold view_loan. split.
  - intros ->. reflexivity.
  - intros l Hl. rewrite Hl.
    unfold get_loan in Hl. apply find_some in Hl. destruct Hl as [Hin Hid].
    apply Z.eqb_eq in Hid.
    unfold loans_have_owners in Hinv. rewrite forallb_forall in Hinv.
    specialize (Hinv l Hin). apply existsb_exists in Hinv.
    destruct Hinv as [c0 [Hin0 Hid0]].
    destruct (get_customer (customers st) (customer l)) as [c|] eqn:Hc.
    + destruct (get_customer_some _ _ _ Hc) as [_ Hcid].
      exists c. rewrite Hid. repeat split; assumption.
    + exfalso. unfold get_customer in Hc.
      exact (eq_true_false_abs _ Hid0 (find_none _ _ Hc c0 Hin0)).
Qed.

(** ** Worked instances on the sample data *)

Lemma corrected_rate_never_reduced_witness :
  (8 <= corrected_interest_rate
          (Samples.quote Samples.fifty_loans Samples.fifty 150000 8 36))%Q.
Proof.
  apply (corrected_rate_never_reduced Samples.fifty_loans Samples.today
           Samples.fifty 150000 8 36
           (Samples.quote Samples.fifty_loans Samples.fifty 150000 8 36)).
  vm_compute. reflexivity.
Defined.

Lemma approval_implies_guards_witness :
  over_burdened Samples.fifty_loans Samples.today Samples.fifty = false
  /\ within_limit Samples.fifty_loans Samples.today Samples.fifty
  /\ 10 < calculate_credit_score Samples.fifty_loans Samples.today Samples.fifty.
Proof.
  apply (approval_implies_guards Samples.fifty_loans Samples.today
           Samples.fifty 150000 8 36
           (Samples.quote Samples.fifty_loans Samples.fifty 150000 8 36)).
  - vm_compute. reflexivity.
  - vm_compute. reflexivity.
Defined.

Lemma rejection_keeps_rate_witness :
  corrected_interest_rate
    (Samples.quote [Samples.john_loan] Samples.john_poor 5000 12 6) = 12%Q
  /\ feq (monthly_installment
            (Samples.quote [Samples.john_loan] Samples.john_poor 5000 12 6))
       (Fin 0).
Proof.
  apply (rejection_keeps_rate [Samples.john_loan] Samples.today
           Samples.john_poor 5000 12 6
           (Samples.quote [Samples.john_loan] Samples.john_poor 5000 12 6)).
  - reflexivity.
  - reflexivity.
Defined.

Lemma decision_ignores_amount_and_tenure_witness :
  approval (Samples.quote [] Samples.newcomer 5000 12 6)
  = approval (Samples.quote [] Samples.newcomer 900000 12 48)
  /\ corrected_interest_rate (Samples.quote [] Samples.newcomer 5000 12 6)
     = corrected_interest_rate (Samples.quote [] Samples.newcomer 900000 12 48).
Proof.
  apply (decision_ignores_amount_and_tenure [] Samples.today Samples.newcomer
           5000 900000 12 6 48).
  - vm_compute. reflexivity.
  - vm_compute. reflexivity.
Defined.

Lemma score_depends_on_own_loans_witness :
  calculate_credit_score [Samples.john_loan] Samples.today Samples.john
  = calculate_credit_score [Samples.stranger_loan; Samples.john_loan]
      Samples.today Samples.john
  /\ get_eligibility_status [Samples.john_loan] Samples.today Samples.john
       5000 12 6
     = get_eligibility_status [Samples.stranger_loan; Samples.john_loan]
         Samples.today Samples.john 5000 12 6.
Proof.
  apply (score_depends_on_own_loans [Samples.john_loan]
           [Samples.stranger_loan; Samples.john_loan] Samples.today
           Samples.john 5000 12 6).
  reflexivity.
Defined.

Lemma installment_clears_balance_witness :
  (balance 50000 (8 / 100 / 12)
     (50000 * (8 / 100 / 12) * (1 + 8 / 100 / 12) ^ 12
      / ((1 + 8 / 100 / 12) ^ 12 - 1))
     12 == 0)%Q.
Proof.
  apply (installment_clears_balance 50000 8
           (50000 * (8 / 100 / 12) * (1 + 8 / 100 / 12) ^ 12
            / ((1 + 8 / 100 / 12) ^ 12 - 1))%Q 12).
  - lia.
  - reflexivity.
Defined.

Lemma installment_covers_witness :
  (50000 * (8 / 100 / 12)
   < 50000 * (8 / 100 / 12) * (1 + 8 / 100 / 12) ^ 12
     / ((1 + 8 / 100 / 12) ^ 12 - 1)
   /\ 50000
      <= 50000 * (8 / 100 / 12) * (1 + 8 / 100 / 12) ^ 12
         / ((1 + 8 / 100 / 12) ^ 12 - 1) * inject_Z 12)%Q.
Proof.
  apply (installment_covers_interest_and_principal 50000 8
           (50000 * (8 / 100 / 12) * (1 + 8 / 100 / 12) ^ 12
            / ((1 + 8 / 100 / 12) ^ 12 - 1))%Q 12).
  - reflexivity.
  - discriminate.
  - lia.
  - reflexivity.
Defined.

Lemma create_loan_frame_witness :
  customers (snd Samples.issue_outcome) = customers Samples.fresh_store
  /\ ((status (fst Samples.issue_outcome) <> HTTP_201_CREATED
       /\ snd Samples.issue_outcome = Samples.fresh_store)
      \/ (status (fst Samples.issue_outcome) = HTTP_201_CREATED
          /\ exists l,
               loans (snd Samples.issue_outcome)
               = loans Samples.fresh_store ++ [l])).
Proof.
  apply (create_loan_frame Samples.accept_loan Samples.next_loan_id
           Samples.fresh_store (snd Samples.issue_outcome) Samples.today
           Samples.approved_request (fst Samples.issue_outcome)).
  vm_compute. reflexivity.
Defined.

Lemma created_loan_record_witness :
  exists e,
    approval e = true
    /\ snd Samples.issue_outcome
       = mkStore [Samples.newcomer]
           [mkLoan 1 4 5000 6 (corrected_interest_rate e)
              (monthly_installment e) 0 Samples.today (mkdate 2026 3 15)].
Proof.
  destruct (created_loan_record Samples.accept_loan Samples.next_loan_id
              Samples.fresh_store (snd Samples.issue_outcome) Samples.today
              Samples.approved_request (fst Samples.issue_outcome))
    as [c [e [_ [_ [Ha [Hst _]]]]]].
  - vm_compute. reflexivity.
  - reflexivity.
  - exists e. split; [exact Ha|exact Hst].
Defined.

Lemma quote_matches_issuance_witness :
  create_loan Samples.accept_loan Samples.next_loan_id Samples.poor_store
    Samples.today Samples.rejected_request
  = Return
      (mkResponse
         (LoanResult None 1 false
            "Loan not approved based on eligibility check." (Fin 0))
         HTTP_200_OK,
       Samples.poor_store).
Proof.
  apply (quote_matches_issuance Samples.accept_loan Samples.next_loan_id
           Samples.poor_store Samples.today Samples.rejected_request
           1 false 12 None 6 (Fin 0)).
  - reflexivity.
  - reflexivity.
Defined.

Lemma handlers_keep_owners_witness :
  loans_have_owners (snd Samples.issue_outcome) = true
  /\ loans_have_owners (snd Samples.registration_outcome) = true.
Proof.
  split.
  - destruct (handlers_keep_owners Samples.accept_customer Samples.accept_loan
                Samples.next_customer_id Samples.next_loan_id
                Samples.fresh_store eq_refl) as [Hc _].
    apply (Hc Samples.today Samples.approved_request
             (fst Samples.issue_outcome)).
    vm_compute. reflexivity.
  - destruct (handlers_keep_owners Samples.accept_customer Samples.accept_loan
                Samples.next_customer_id Samples.next_loan_id
                Samples.store eq_refl) as [_ Hr].
    apply (Hr (Dict Samples.jane) (fst Samples.registration_outcome)).
    reflexivity.
Defined.

Lemma approved_limit_monotone_witness :
  compute_approved_limit 50000 <= compute_approved_limit 75000
  /\ 0 <= compute_approved_limit 50000.
Proof.
  destruct (approved_limit_monotone 50000 75000) as [Hm Hn];
    [discriminate|].
  split; [exact Hm|apply Hn; discriminate].
Defined.

Lemma registered_customer_is_eligible_witness :
  exists c,
    get_customer (customers (snd Samples.registration_outcome)) 2 = Some c
    /\ calculate_credit_score (loans (snd Samples.registration_outcome))
         Samples.today c = 25
    /\ exists installment,
         check_eligibility (snd Samples.registration_outcome) Samples.today
           (LoanRequestSchema.mk 2 100000 10 24)
         = Return
             (mkResponse
                (EligibilityResult 2 true 10 (Some 16%Q) 24 installment)
                HTTP_200_OK).
Proof.
  destruct (registered_customer_is_eligible Samples.accept_customer
              Samples.next_customer_id Samples.store
              (snd Samples.registration_outcome) Samples.jane
              (fst Samples.registration_outcome) Samples.today 100000 10 24)
    as [c [Hget [Hs Hq]]].
  - reflexivity.
  - reflexivity.
  - intros c [<-|[]]. discriminate.
  - intros l [<-|[]]. discriminate.
  - reflexivity.
  - discriminate.
  - lia.
  - exists c. split; [exact Hget|]. split; [exact Hs|].
    destruct (check_eligibility (snd Samples.registration_outcome)
                Samples.today (LoanRequestSchema.mk 2 100000 10 24))
      as [answer|err] eqn:E.
    + destruct (Hq answer E) as [installment ->].
      exists installment. reflexivity.
    + exfalso. vm_compute in E. discriminate E.
Defined.

Lemma handlers_never_divide_by_zero_witness :
  In (status (fst Samples.issue_outcome)) [200; 201; 400; 404]
  /\ create_loan Samples.accept_loan Samples.next_loan_id Samples.fresh_store
       Samples.today Samples.approved_request
     <> Raise ZeroDivisionError.
Proof.
  destruct (handlers_never_divide_by_zero Samples.accept_loan
              Samples.next_loan_id Samples.fresh_store Samples.today
              Samples.approved_request) as [Hz [_ [Hs _]]].
  split; [|exact Hz].
  apply (Hs (fst Samples.issue_outcome) (snd Samples.issue_outcome)).
  vm_compute. reflexivity.
Defined.

Lemma sample_day_valid : valid_date Samples.today.
Proof. unfold valid_date; cbn; lia. Qed.

Lemma repayments_left_zero_iff_ended_witness :
  get_repayments_left 1 Samples.today (mkdate 2025 9 15) = Some 0
  /\ exists k,
       get_repayments_left 1 Samples.today (mkdate 2025 9 16) = Some k
       /\ 1 <= k.
Proof.
  assert (V0 : valid_date (mkdate 2025 9 15)) by (unfold valid_date; cbn; lia).
  assert (V1 : valid_date (mkdate 2025 9 16)) by (unfold valid_date; cbn; lia).
  destruct (repayments_left_zero_iff_ended 1 Samples.today (mkdate 2025 9 15)
              sample_day_valid V0 (le_n 1)) as [H0 _].
  destruct (repayments_left_zero_iff_ended 1 Samples.today (mkdate 2025 9 16)
              sample_day_valid V1 (le_n 1)) as [_ H1].
  split; [exact (H0 eq_refl)|exact (H1 eq_refl)].
Defined.

Lemma issue_day_shows_full_tenure_witness :
  get_repayments_left 0 (mkdate 2025 1 31)
    (RelativeDelta.add_months (mkdate 2025 1 31) 13)
  = Some 13.
Proof.
  apply (issue_day_shows_full_tenure 0 (mkdate 2025 1 31) 13).
  - unfold valid_date; cbn; lia.
  - lia.
  - unfold MAXYEAR. cbn. lia.
Defined.

Lemma issued_loan_end_date_witness :
  exists l,
    loans (snd Samples.issue_outcome) = [l]
    /\ end_date l = mkdate 2026 3 15
    /\ valid_date (end_date l)
    /\ date_ltb (start_date l) (end_date l) = true.
Proof.
  destruct (issued_loan_end_date Samples.accept_loan Samples.next_loan_id
              Samples.fresh_store (snd Samples.issue_outcome) Samples.today
              Samples.approved_request (fst Samples.issue_outcome))
    as [l [Hl [_ [_ [Hv [_ [_ [_ Hlt]]]]]]]].
  - exact sample_day_valid.
  - unfold MAXYEAR. cbn. lia.
  - vm_compute. reflexivity.
  - reflexivity.
  - exists l. split; [exact Hl|]. split; [|split; [exact Hv|exact Hlt]].
    assert (E : loans (snd Samples.issue_outcome)
                = [mkLoan 1 4 5000 6 16
                     (monthly_repayment
                        (hd Samples.john_loan
                           (loans (snd Samples.issue_outcome))))
                     0 Samples.today (mkdate 2026 3 15)])
      by (vm_compute; reflexivity).
    rewrite Hl in E. simpl in E. injection E as ->. reflexivity.
Defined.

Lemma view_customer_loans_witness :
  view_customer_loans 1 Samples.store Samples.today 9
  = Some (mkViewResponse (ViewError "Customer not found") HTTP_404_NOT_FOUND)
  /\ exists items,
       view_customer_loans 1 Samples.store Samples.today 1
       = Some (mkViewResponse (LoanList items) HTTP_200_OK)
       /\ map ViewLoansSerializer.loan_id items = [1]
       /\ Forall (fun i => 0 <= ViewLoansSerializer.repayments_left i) items.
Proof.
  assert (Hv : forall l, In l (loans Samples.store) -> valid_date (end_date l)).
  { intros l [<-|[]]. unfold valid_date; cbn; lia. }
  destruct (view_customer_loans_lists_own_loans 1 Samples.store Samples.today 9
              sample_day_valid (le_n 1) Hv) as [H404 _].
  destruct (view_customer_loans_lists_own_loans 1 Samples.store Samples.today 1
              sample_day_valid (le_n 1) Hv) as [_ H200].
  split; [exact (H404 eq_refl)|].
  exact (H200 Samples.john eq_refl).
Defined.

Lemma issued_loan_is_listed_witness :
  exists rate installment,
    view_customer_loans 1 (snd Samples.issue_outcome) Samples.today 4
    = Some
        (mkViewResponse
           (LoanList [ViewLoansSerializer.mk 1 5000 rate installment 6])
           HTTP_200_OK).
Proof.
  destruct (issued_loan_is_listed Samples.accept_loan Samples.next_loan_id 1
              Samples.fresh_store (snd Samples.issue_outcome) Samples.today
              Samples.approved_request (fst Samples.issue_outcome) [])
    as [rate [installment [_ Hview]]].
  - exact sample_day_valid.
  - vm_compute. reflexivity.
  - reflexivity.
  - reflexivity.
  - exists rate, installment. exact Hview.
Defined.

Lemma issued_loan_is_viewable_witness :
  exists rate installment,
    view_loan (snd Samples.issue_outcome) 1
    = mkViewResponse
        (LoanDetail
           (LoanDetailSerializer.mk 1 Samples.newcomer 5000 rate installment 6))
        HTTP_200_OK.
Proof.
  destruct (issued_loan_is_viewable Samples.accept_loan Samples.next_loan_id
              Samples.fresh_store (snd Samples.issue_outcome) Samples.today
              Samples.approved_request (fst Samples.issue_outcome))
    as [c [rate [installment [Hc [_ Hview]]]]].
  - vm_compute. reflexivity.
  - reflexivity.
  - intros l [].
  - exists rate, installment.
    assert (E : Some c = Some Samples.newcomer) by (rewrite <- Hc; reflexivity).
    injection E as <-. exact Hview.
Defined.

Lemma view_loan_found_iff_witness :
  view_loan Samples.store 999
  = mkViewResponse (ViewError "Loan not found") HTTP_404_NOT_FOUND
  /\ exists c,
       view_loan Samples.store 1
       = mkViewResponse
           (LoanDetail
              (LoanDetailSerializer.mk 1 c 10000 10 (Fin (87916 # 100)) 12))
           HTTP_200_OK
       /\ customer_id c = 1.
Proof.
  destruct (view_loan_found_iff Samples.store 999 eq_refl) as [H404 _].
  destruct (view_loan_found_iff Samples.store 1 eq_refl) as [_ H200].
  split; [exact (H404 eq_refl)|].
  destruct (H200 Samples.john_loan eq_refl) as [c [_ [Hid [_ Hview]]]].
  exists c. split; [exact Hview|exact Hid].
Defined.

Lemma check_eligibility_answer_witness :
  exists a corrected m,
    check_eligibility Samples.poor_store Samples.today Samples.rejected_request
    = Return (mkResponse (EligibilityResult 1 a 12 corrected 6 m) HTTP_200_OK)
    /\ (a = false -> corrected = None /\ feq m (Fin 0)).
Proof.
  destruct (check_eligibility_answer Samples.poor_store Samples.today
              Samples.rejected_request
              (mkResponse (EligibilityResult 1 false 12 None 6 (Fin 0))
                 HTTP_200_OK) eq_refl eq_refl)
    as [a [corrected [m [Hd [Hrej _]]]]].
  exists a, corrected, m. split; [|exact Hrej].
  simpl in Hd. rewrite <- Hd. reflexivity.
Defined.

(** ** The store after issuance and registration *)

Lemma find_app_some {A : Type} (f : A -> bool) (xs ys : list A) (x : A) :
  find f xs = Some x -> find f (xs ++ ys) = Some x.
Proof.
  induction xs as [|a xs IH]; simpl; [discriminate|].
  destruct (f a); [trivial|exact IH].
Qed.

Section StoreAfterWrites.

Variable CustomerSerializer_is_valid : Customer -> bool.
Variable LoanSerializer_is_valid : Loan -> bool.
Variable next_customer_id : list Customer -> Z.
Variable next_loan_id : list Loan -> Z.

(** X23.  A loan issued today is active today: after a 201 the active
    loans of the customer are the ones from before followed by the new
    loan, so that the next evaluation on the same day counts its principal
    and its installment. *)
Theorem issued_loan_is_active :
  forall (st st' : Store) (today : date) (req : LoanRequestSchema.t)
         (r : Response),
    valid_date today ->
    create_loan LoanSerializer_is_valid next_loan_id st today req
    = Return (r, st') ->
    status r = HTTP_201_CREATED ->
    exists c l,
      get_customer (customers st') (LoanRequestSchema.customer_id req) = Some c
      /\ loans st' = loans st ++ [l]
      /\ loan_amount l = LoanRequestSchema.loan_amount req
      /\ active today (loans_of (loans st') c)
         = active today (loans_of (loans st) c) ++ [l].
Proof.
  intros st st' today req r Vt Hcreate H201.
  unfold create_loan in Hcreate.
  destruct (LoanRequestSchema.validate req) as [v|] eqn:Hv.
  2:{ injection Hcreate as <- <-. discriminate H201. }
  destruct (loan_request_valid req v Hv) as [-> [_ [_ Hn]]].
  destruct (get_customer _ _) as [c|] eqn:Hc.
  2:{ injection Hcreate as <- <-. discriminate H201. }
  destruct (get_customer_some _ _ _ Hc) as [_ Hid].
  destruct (get_eligibility_status _ _ _ _ _ _) as [e|err]; simpl in Hcreate;
    [|discriminate].
  destruct (approval e); simpl in Hcreate.
  2:{ injection Hcreate as <- <-. discriminate H201. }
  destruct (LoanSerializer_is_valid _).
  2:{ injection Hcreate as <- <-. discriminate H201. }
  injection Hcreate as <- <-. cbn [customers loans].
  eexists c, _. split; [exact Hc|]. split; [reflexivity|].
  split; [reflexivity|].
  unfold active, loans_of. rewrite !filter_app. cbn [filter customer end_date].
  rewrite Z.eqb_refl. cbn [filter end_date].
  unfold date_leb. rewrite add_months_not_before by (assumption || lia).
  reflexivity.
Qed.

(** X24.  [register_customer] answers 201 or 400.  A 201 is given exactly
    to a mapping with age > 0 and monthly_income > 0 that the model
    serializer accepts; it appends one customer, under the key the store
    allots, with the income as salary, and leaves the loans alone.  A 400
    leaves the store unchanged. *)
Theorem registration_outcomes :
  forall (st st' : Store) (req : request_data RegisterCustomerSchema.t)
         (r : Response),
    register_customer CustomerSerializer_is_valid next_customer_id st req
    = (r, st') ->
    (status r = HTTP_201_CREATED
     /\ exists fields c,
          req = Dict fields
          /\ 0 < RegisterCustomerSchema.age fields
          /\ (0 < RegisterCustomerSchema.monthly_income fields)%Q
          /\ st' = mkStore (customers st ++ [c]) (loans st)
          /\ customer_id c = next_customer_id (customers st)
          /\ monthly_salary c = RegisterCustomerSchema.monthly_income fields
          /\ age c = RegisterCustomerSchema.age fields)
    \/ (status r = HTTP_400_BAD_REQUEST /\ st' = st).
Proof.
  intros st st' req r. unfold register_customer.
  destruct req as [|fields].
  { intro H. injection H as <- <-. right. split; reflexivity. }
  unfold RegisterCustomerSchema.validate.
  destruct (0 <? RegisterCustomerSchema.age fields) eqn:Ea; simpl.
  2:{ intro H. injection H as <- <-. right. split; reflexivity. }
  destruct (Qltb 0 (RegisterCustomerSchema.monthly_income fields)) eqn:Ei.
  2:{ intro H. injection H as <- <-. right. split; reflexivity. }
  destruct (CustomerSerializer_is_valid _).
  2:{ intro H. injection H as <- <-. right. split; reflexivity. }
  intro H. injection H as <- <-. left. split; [reflexivity|].
  apply Z.ltb_lt in Ea. apply Qltb_lt in Ei.
  eexists fields, _. repeat split; assumption.
Qed.

(** X25.  Writes keep lookups stable.  After any [register_customer] a
    key that resolved to a customer resolves to the same customer, and
    after any [create_loan] a key that resolved to a loan resolves to the
    same loan, while every customer key resolves as before. *)
Theorem lookups_survive_writes :
  forall (st : Store),
    (forall req r st' id c,
        register_customer CustomerSerializer_is_valid next_customer_id st req
        = (r, st') ->
        get_customer (customers st) id = Some c ->
        get_customer (customers st') id = Some c)
    /\ (forall today req r st' id l,
           create_loan LoanSerializer_is_valid next_loan_id st today req
           = Return (r, st') ->
           get_loan (loans st) id = Some l ->
           get_loan (loans st') id = Some l
           /\ customers st' = customers st).
Proof.
  intro st. split.
  - intros req r st' id c. unfold register_customer.
    destruct req as [|fields]; [intro H; injection H as <- <-; trivial|].
    destruct (RegisterCustomerSchema.validate fields);
      [|intro H; injection H as <- <-; trivial].
    destruct (CustomerSerializer_is_valid _);
      [|intro H; injection H as <- <-; trivial].
    intro H. injection H as <- <-. cbn [customers].
    apply find_app_some.
  - intros today req r st' id l. unfold create_loan.
    destruct (LoanRequestSchema.validate req);
      [|intro H; injection H as <- <-; auto].
    destruct (get_customer _ _);
      [|intro H; injection H as <- <-; auto].
    destruct (get_eligibility_status _ _ _ _ _ _); simpl; [|discriminate].
    destruct (approval _); simpl;
      [|intro H; injection H as <- <-; auto].
    destruct (LoanSerializer_is_valid _);
      [|intro H; injection H as <- <-; auto].
    intro H. injection H as <- <-. cbn [customers loans]. intro Hl.
    split; [apply find_app_some; exact Hl|reflexivity].
Qed.

End StoreAfterWrites.

Lemma issued_loan_is_active_witness :
  exists l,
    loans (snd Samples.issue_outcome) = [l]
    /\ active Samples.today
         (loans_of (loans (snd Samples.issue_outcome)) Samples.newcomer)
       = [l].
Proof.
  destruct (issued_loan_is_active Samples.accept_loan Samples.next_loan_id
              Samples.fresh_store (snd Samples.issue_outcome) Samples.today
              Samples.approved_request (fst Samples.issue_outcome))
    as [c [l [Hc [Hl [_ Ha]]]]].
  - exact sample_day_valid.
  - vm_compute. reflexivity.
  - reflexivity.
  - exists l. split; [exact Hl|].
    assert (E : Some c = Some Samples.newcomer) by (rewrite <- Hc; reflexivity).
    injection E as <-. exact Ha.
Defined.

Lemma registration_outcomes_witness :
  (status (fst Samples.registration_outcome) = HTTP_201_CREATED
   /\ exists fields c,
        Dict Samples.jane = Dict fields
        /\ 0 < RegisterCustomerSchema.age fields
        /\ (0 < RegisterCustomerSchema.monthly_income fields)%Q
        /\ snd Samples.registration_outcome
           = mkStore (customers Samples.store ++ [c]) (loans Samples.store)
        /\ customer_id c = 2
        /\ monthly_salary c = RegisterCustomerSchema.monthly_income fields
        /\ age c = RegisterCustomerSchema.age fields)
  \/ (status (fst Samples.registration_outcome) = HTTP_400_BAD_REQUEST
      /\ snd Samples.registration_outcome = Samples.store).
Proof.
  apply (registration_outcomes Samples.accept_customer
           Samples.next_customer_id Samples.store
           (snd Samples.registration_outcome) (Dict Samples.jane)
           (fst Samples.registration_outcome)).
  reflexivity.
Defined.

Lemma lookups_survive_writes_witness :
  get_customer (customers (snd Samples.registration_outcome)) 1
  = Some Samples.john.
Proof.
  destruct (lookups_survive_writes Samples.accept_customer Samples.accept_loan
              Samples.next_customer_id Samples.next_loan_id Samples.store)
    as [Hreg _].
  apply (Hreg (Dict Samples.jane) (fst Samples.registration_outcome)).
  - reflexivity.
  - reflexivity.
Defined.
